(** * FastAPI_Whisper: the transcription service of [app.py]

    A shallow embedding of [app.py] and the properties of its specification.

    The service is an orchestration layer: the speech model, the tensor
    runtime, the two audio decoders, the clock and the file system are
    external.  They are kept external here as well: a [Host] record holds
    one oracle per external call site, every oracle may answer with a value
    or with a raised exception, and every theorem is proved for all hosts.
    What is modelled concretely is what [app.py] itself decides: the order
    of the calls, the [try]/[except] structure, the local variable
    [temp_file_path], the metric updates, the temporary file's life cycle
    and the shape of the response.

    Conventions.
    - A Python [str] is the list of its code points ([pystr]); [py] turns a
      literal into one.
    - An exception is an instance of a subclass of [Exception], the class
      that both handlers of [app.py] catch; [str(e)] is [exn_msg].
      Interpreter-level signals that are not [Exception]s are not modelled.
    - A float is an element of an abstract type [Time]; subtraction and
      [round(x, 2)] are the host's.
    - [async]/[await] is sequential: one request runs from its first line
      to its [return]. *)

From Stdlib Require Import ZArith NArith String Ascii.
From Stdlib.Strings Require Import Byte.
From stdpp Require Import base tactics option list strings gmap.

Local Open Scope Z_scope.

(** ** Python strings *)

Definition pystr := list N.

(** The literal [s] as a Python string (one code point per character). *)
Definition py (s : string) : pystr :=
  (fun c => N_of_ascii c) <$> list_ascii_of_string s.

Definition truthy_str (s : pystr) : bool :=
  match s with [] => false | _ => true end.

(** [a or b] on strings. *)
Definition str_or (a b : pystr) : pystr := if truthy_str a then a else b.

(** [x or b] where [x] is [None] or a string. *)
Definition opt_str_or (x : option pystr) (b : pystr) : pystr :=
  match x with
  | None => b
  | Some a => str_or a b
  end.

(** *** [str.strip()]

    [str.isspace] for one code point: the ASCII table of CPython
    (TAB..CR, FS..US, SPACE) and the code points of type [White_Space]
    above it. *)
Definition py_isspace (c : N) : bool :=
  ((9 <=? c) && (c <=? 13) || (28 <=? c) && (c <=? 32)
   || (c =? 133) || (c =? 160) || (c =? 5760)
   || (8192 <=? c) && (c <=? 8202)
   || (c =? 8232) || (c =? 8233) || (c =? 8239) || (c =? 8287)
   || (c =? 12288))%N.

Fixpoint lstrip (s : pystr) : pystr :=
  match s with
  | [] => []
  | c :: r => if py_isspace c then lstrip r else s
  end.

Definition rstrip (s : pystr) : pystr := reverse (lstrip (reverse s)).

Definition strip (s : pystr) : pystr := rstrip (lstrip s).

(** *** [os.path.splitext]

    [genericpath._splitext(p, sep, altsep, extsep)]: the extension starts
    at the last [extsep] of the last path component, unless that component
    has only dots before it. *)

(** [p.rfind(c)]: the index of the last [c], or [-1]. *)
Fixpoint rfind_from (c : N) (p : pystr) (i : Z) (found : Z) : Z :=
  match p with
  | [] => found
  | x :: r => rfind_from c r (i + 1) (if (x =? c)%N then i else found)
  end.

Definition rfind (c : N) (p : pystr) : Z := rfind_from c p 0 (-1).

(** [p[i:j]] for [0 <= i]. *)
Definition slice (p : pystr) (i j : Z) : pystr :=
  take (Z.to_nat (j - i)) (drop (Z.to_nat i) p).

(** The [while filenameIndex < dotIndex] loop, run over
    [p[filenameIndex:dotIndex]]: [true] when it meets a character other
    than [extsep] (the [return] inside the loop). *)
Fixpoint some_non_dot (extsep : N) (l : pystr) : bool :=
  match l with
  | [] => false
  | c :: r => if (c =? extsep)%N then some_non_dot extsep r else true
  end.

Definition _splitext (p : pystr) (sep : N) (altsep : option N) (extsep : N)
  : pystr * pystr :=
  let sepIndex := rfind sep p in
  let sepIndex :=
    match altsep with
    | Some a => Z.max sepIndex (rfind a p)
    | None => sepIndex
    end in
  let dotIndex := rfind extsep p in
  if (sepIndex <? dotIndex) && some_non_dot extsep (slice p (sepIndex + 1) dotIndex)
  then (take (Z.to_nat dotIndex) p, drop (Z.to_nat dotIndex) p)
  else (p, []).

(** [posixpath.splitext]: [sep = '/'], no [altsep], [extsep = '.']. *)
Definition os_path_splitext (p : pystr) : pystr * pystr :=
  _splitext p 47%N None 46%N.

(** Line 104:
    [os.path.splitext(audio_file.filename or "audio.wav")[1] or ".wav"]. *)
Definition file_extension (filename : option pystr) : pystr :=
  str_or (os_path_splitext (opt_str_or filename (py "audio.wav"))).2 (py ".wav").

(** ** Exceptions, results and JSON values *)

(** An instance of a subclass of [Exception]; [exn_msg e] is [str(e)]. *)
Record Exn := { exn_msg : pystr }.

Inductive Res (A : Type) : Type :=
| Ok (a : A)
| Raise (e : Exn).
Arguments Ok {A} a.
Arguments Raise {A} e.

Inductive Dtype := float16 | float32.

Section Service.

(** The carriers of the external libraries: floats, torch tensors, numpy
    waveforms, the model, its processor, the processor's output, the
    generated token ids and [torch.device]. *)
Context {Time Tensor Waveform Model Processor Inputs Ids Device : Type}.

(** A response body: a Python dict literal, keys in source order. *)
#[warnings="-register-all"]
Inductive json : Type :=
| JStr (s : pystr)
| JNum (x : Time)
| JBool (b : bool)
| JObj (fields : list (string * json)).

Fixpoint assoc (k : string) (l : list (string * json)) : option json :=
  match l with
  | [] => None
  | (k', v) :: r => if String.eqb k k' then Some v else assoc k r
  end.

Definition json_get (k : string) (j : json) : option json :=
  match j with
  | JObj l => assoc k l
  | _ => None
  end.

Definition json_keys (j : json) : list string :=
  match j with
  | JObj l => l.*1
  | _ => []
  end.

Definition is_JStr (o : option json) : bool :=
  match o with Some (JStr _) => true | _ => false end.

Definition is_JNum (o : option json) : bool :=
  match o with Some (JNum _) => true | _ => false end.

Definition is_JObj (o : option json) : bool :=
  match o with Some (JObj _) => true | _ => false end.

(** ** The state of the process

    The module globals of [app.py], the Prometheus registry, the file
    system, the local variable [temp_file_path] of the running request
    (it is read by the [except] block, so it lives in the state and not
    in the result of the [try] body), the number of clock readings and
    [os.unlink] calls made so far, and the trace of calls in program
    order. *)
Record State := mkState {
  model_loaded : bool;
  whisper_model : option Model;
  processor : option Processor;
  TRANSCRIPTION_REQUESTS : nat;
  TRANSCRIPTION_DURATION : list Time;
  INFERENCE_DURATION : list Time;
  AUDIO_LOAD_DURATION : list Time;
  PROCESSING_DURATION : list Time;
  DECODE_DURATION : list Time;
  TRANSCRIPTION_ERRORS : nat;
  MODEL_LOADED : Z;
  fs : gmap pystr (list byte);
  temp_file_path : option pystr;
  clock_reads : nat;
  unlink_calls : nat;
  trace : list string;
}.

(** The uploaded file: its filename hint and what [await audio_file.read()]
    yields. *)
Record UploadFile := {
  filename : option pystr;
  read : Res (list byte);
}.

(** ** The host: one oracle per external call site *)
Record Host := {
  (** [time.time()], by the number of earlier readings; float [-];
      [round(x, 2)]; [str(device)] *)
  clock : nat -> Time;
  fsub : Time -> Time -> Time;
  round2 : Time -> Time;
  str_device : Device -> pystr;
  (** torch and transformers *)
  cuda_is_available : bool;
  ext_processor_from_pretrained : pystr -> Res Processor;
  ext_model_from_pretrained : pystr -> Dtype -> Res Model;
  ext_model_to : Model -> pystr -> Res Model;
  ext_processor_call : Processor -> Waveform -> Res Inputs;
  ext_parameters_device : Model -> Res Device;
  ext_inputs_to : Inputs -> Device -> Res Inputs;
  ext_generate : Model -> Inputs -> Res Ids;
  ext_batch_decode : Processor -> Ids -> Res (list pystr);
  (** torchaudio and librosa, reading the file system *)
  ext_torchaudio_load : gmap pystr (list byte) -> pystr -> Res (Tensor * Z);
  shape0 : Tensor -> Z;
  ext_torch_mean : Tensor -> Res Tensor;
  ext_Resample : Z -> Z -> Tensor -> Res Tensor;
  ext_squeeze_numpy : Tensor -> Res Waveform;
  ext_librosa_load :
    gmap pystr (list byte) -> pystr -> Z -> bool -> Res (Waveform * Z);
  (** tempfile and os: the directory, prefix and random part [mkstemp]
      picks, the faults of writing and flushing, and the fault (if any)
      of the n-th [os.unlink] call *)
  ext_mkstemp : gmap pystr (list byte) -> Res pystr;
  ext_write_fault : pystr -> list byte -> option Exn;
  ext_flush_fault : pystr -> option Exn;
  ext_unlink_fault : nat -> pystr -> option Exn;
}.

Variable host : Host.

(** ** A state and exception monad *)

Definition M (A : Type) : Type := State -> Res A * State.

#[export] Instance M_ret : MRet M := fun A a s => (Ok a, s).

#[export] Instance M_bind : MBind M := fun A B k m s =>
  match m s with
  | (Ok a, s') => k a s'
  | (Raise e, s') => (Raise e, s')
  end.

Definition raise {A} (e : Exn) : M A := fun s => (Raise e, s).

(** [try: m  except Exception as e: h e] *)
Definition try_except {A} (m : M A) (h : Exn -> M A) : M A := fun s =>
  match m s with
  | (Ok a, s') => (Ok a, s')
  | (Raise e, s') => h e s'
  end.

(** [m], then [fin] on both exits (the [__exit__] of a [with] block whose
    context manager does not swallow exceptions). *)
Definition finally_ {A} (m : M A) (fin : M unit) : M A := fun s =>
  match m s with
  | (Ok a, s') => match fin s' with
                  | (Ok _, s'') => (Ok a, s'')
                  | (Raise e, s'') => (Raise e, s'')
                  end
  | (Raise e, s') => match fin s' with
                     | (Ok _, s'') => (Raise e, s'')
                     | (Raise e', s'') => (Raise e', s'')
                     end
  end.

Definition get {A} (f : State -> A) : M A := fun s => (Ok (f s), s).

(** ** State updates *)

Definition log_call (name : string) (s : State) : State :=
  mkState (model_loaded s) (whisper_model s) (processor s)
    (TRANSCRIPTION_REQUESTS s) (TRANSCRIPTION_DURATION s) (INFERENCE_DURATION s)
    (AUDIO_LOAD_DURATION s) (PROCESSING_DURATION s) (DECODE_DURATION s)
    (TRANSCRIPTION_ERRORS s) (MODEL_LOADED s) (fs s) (temp_file_path s)
    (clock_reads s) (unlink_calls s) (trace s ++ [name]).

Definition set_model_loaded (b : bool) (s : State) : State :=
  mkState b (whisper_model s) (processor s)
    (TRANSCRIPTION_REQUESTS s) (TRANSCRIPTION_DURATION s) (INFERENCE_DURATION s)
    (AUDIO_LOAD_DURATION s) (PROCESSING_DURATION s) (DECODE_DURATION s)
    (TRANSCRIPTION_ERRORS s) (MODEL_LOADED s) (fs s) (temp_file_path s)
    (clock_reads s) (unlink_calls s) (trace s).

Definition set_whisper_model (m : option Model) (s : State) : State :=
  mkState (model_loaded s) m (processor s)
    (TRANSCRIPTION_REQUESTS s) (TRANSCRIPTION_DURATION s) (INFERENCE_DURATION s)
    (AUDIO_LOAD_DURATION s) (PROCESSING_DURATION s) (DECODE_DURATION s)
    (TRANSCRIPTION_ERRORS s) (MODEL_LOADED s) (fs s) (temp_file_path s)
    (clock_reads s) (unlink_calls s) (trace s).

Definition set_processor (p : option Processor) (s : State) : State :=
  mkState (model_loaded s) (whisper_model s) p
    (TRANSCRIPTION_REQUESTS s) (TRANSCRIPTION_DURATION s) (INFERENCE_DURATION s)
    (AUDIO_LOAD_DURATION s) (PROCESSING_DURATION s) (DECODE_DURATION s)
    (TRANSCRIPTION_ERRORS s) (MODEL_LOADED s) (fs s) (temp_file_path s)
    (clock_reads s) (unlink_calls s) (trace s).

Definition set_TRANSCRIPTION_REQUESTS (n : nat) (s : State) : State :=
  mkState (model_loaded s) (whisper_model s) (processor s)
    n (TRANSCRIPTION_DURATION s) (INFERENCE_DURATION s)
    (AUDIO_LOAD_DURATION s) (PROCESSING_DURATION s) (DECODE_DURATION s)
    (TRANSCRIPTION_ERRORS s) (MODEL_LOADED s) (fs s) (temp_file_path s)
    (clock_reads s) (unlink_calls s) (trace s).

Definition set_TRANSCRIPTION_DURATION (h : list Time) (s : State) : State :=
  mkState (model_loaded s) (whisper_model s) (processor s)
    (TRANSCRIPTION_REQUESTS s) h (INFERENCE_DURATION s)
    (AUDIO_LOAD_DURATION s) (PROCESSING_DURATION s) (DECODE_DURATION s)
    (TRANSCRIPTION_ERRORS s) (MODEL_LOADED s) (fs s) (temp_file_path s)
    (clock_reads s) (unlink_calls s) (trace s).

Definition set_INFERENCE_DURATION (h : list Time) (s : State) : State :=
  mkState (model_loaded s) (whisper_model s) (processor s)
    (TRANSCRIPTION_REQUESTS s) (TRANSCRIPTION_DURATION s) h
    (AUDIO_LOAD_DURATION s) (PROCESSING_DURATION s) (DECODE_DURATION s)
    (TRANSCRIPTION_ERRORS s) (MODEL_LOADED s) (fs s) (temp_file_path s)
    (clock_reads s) (unlink_calls s) (trace s).

Definition set_AUDIO_LOAD_DURATION (h : list Time) (s : State) : State :=
  mkState (model_loaded s) (whisper_model s) (processor s)
    (TRANSCRIPTION_REQUESTS s) (TRANSCRIPTION_DURATION s) (INFERENCE_DURATION s)
    h (PROCESSING_DURATION s) (DECODE_DURATION s)
    (TRANSCRIPTION_ERRORS s) (MODEL_LOADED s) (fs s) (temp_file_path s)
    (clock_reads s) (unlink_calls s) (trace s).

Definition set_PROCESSING_DURATION (h : list Time) (s : State) : State :=
  mkState (model_loaded s) (whisper_model s) (processor s)
    (TRANSCRIPTION_REQUESTS s) (TRANSCRIPTION_DURATION s) (INFERENCE_DURATION s)
    (AUDIO_LOAD_DURATION s) h (DECODE_DURATION s)
    (TRANSCRIPTION_ERRORS s) (MODEL_LOADED s) (fs s) (temp_file_path s)
    (clock_reads s) (unlink_calls s) (trace s).

Definition set_DECODE_DURATION (h : list Time) (s : State) : State :=
  mkState (model_loaded s) (whisper_model s) (processor s)
    (TRANSCRIPTION_REQUESTS s) (TRANSCRIPTION_DURATION s) (INFERENCE_DURATION s)
    (AUDIO_LOAD_DURATION s) (PROCESSING_DURATION s) h
    (TRANSCRIPTION_ERRORS s) (MODEL_LOADED s) (fs s) (temp_file_path s)
    (clock_reads s) (unlink_calls s) (trace s).

Definition set_TRANSCRIPTION_ERRORS (n : nat) (s : State) : State :=
  mkState (model_loaded s) (whisper_model s) (processor s)
    (TRANSCRIPTION_REQUESTS s) (TRANSCRIPTION_DURATION s) (INFERENCE_DURATION s)
    (AUDIO_LOAD_DURATION s) (PROCESSING_DURATION s) (DECODE_DURATION s)
    n (MODEL_LOADED s) (fs s) (temp_file_path s)
    (clock_reads s) (unlink_calls s) (trace s).

Definition set_MODEL_LOADED (z : Z) (s : State) : State :=
  mkState (model_loaded s) (whisper_model s) (processor s)
    (TRANSCRIPTION_REQUESTS s) (TRANSCRIPTION_DURATION s) (INFERENCE_DURATION s)
    (AUDIO_LOAD_DURATION s) (PROCESSING_DURATION s) (DECODE_DURATION s)
    (TRANSCRIPTION_ERRORS s) z (fs s) (temp_file_path s)
    (clock_reads s) (unlink_calls s) (trace s).

Definition set_fs (f : gmap pystr (list byte)) (s : State) : State :=
  mkState (model_loaded s) (whisper_model s) (processor s)
    (TRANSCRIPTION_REQUESTS s) (TRANSCRIPTION_DURATION s) (INFERENCE_DURATION s)
    (AUDIO_LOAD_DURATION s) (PROCESSING_DURATION s) (DECODE_DURATION s)
    (TRANSCRIPTION_ERRORS s) (MODEL_LOADED s) f (temp_file_path s)
    (clock_reads s) (unlink_calls s) (trace s).

Definition set_temp_file_path (p : option pystr) (s : State) : State :=
  mkState (model_loaded s) (whisper_model s) (processor s)
    (TRANSCRIPTION_REQUESTS s) (TRANSCRIPTION_DURATION s) (INFERENCE_DURATION s)
    (AUDIO_LOAD_DURATION s) (PROCESSING_DURATION s) (DECODE_DURATION s)
    (TRANSCRIPTION_ERRORS s) (MODEL_LOADED s) (fs s) p
    (clock_reads s) (unlink_calls s) (trace s).

Definition set_clock_reads (n : nat) (s : State) : State :=
  mkState (model_loaded s) (whisper_model s) (processor s)
    (TRANSCRIPTION_REQUESTS s) (TRANSCRIPTION_DURATION s) (INFERENCE_DURATION s)
    (AUDIO_LOAD_DURATION s) (PROCESSING_DURATION s) (DECODE_DURATION s)
    (TRANSCRIPTION_ERRORS s) (MODEL_LOADED s) (fs s) (temp_file_path s)
    n (unlink_calls s) (trace s).

Definition set_unlink_calls (n : nat) (s : State) : State :=
  mkState (model_loaded s) (whisper_model s) (processor s)
    (TRANSCRIPTION_REQUESTS s) (TRANSCRIPTION_DURATION s) (INFERENCE_DURATION s)
    (AUDIO_LOAD_DURATION s) (PROCESSING_DURATION s) (DECODE_DURATION s)
    (TRANSCRIPTION_ERRORS s) (MODEL_LOADED s) (fs s) (temp_file_path s)
    (clock_reads s) n (trace s).

(** ** Primitive operations *)

(** A call that does not raise and has no other effect than being made. *)
Definition call (name : string) : M unit := fun s => (Ok tt, log_call name s).

(** An external call whose outcome [r] the host decides. *)
Definition ext {A} (name : string) (r : Res A) : M A :=
  fun s => (r, log_call name s).

Definition logger_info : M unit := call "logger.info".
Definition logger_warning : M unit := call "logger.warning".
Definition logger_error : M unit := call "logger.error".

Definition time_time : M Time := fun s =>
  (Ok (clock host (clock_reads s)),
   set_clock_reads (S (clock_reads s)) (log_call "time.time" s)).

Definition TRANSCRIPTION_REQUESTS_inc : M unit := fun s =>
  (Ok tt, set_TRANSCRIPTION_REQUESTS (S (TRANSCRIPTION_REQUESTS s))
            (log_call "TRANSCRIPTION_REQUESTS.inc" s)).

Definition TRANSCRIPTION_ERRORS_inc : M unit := fun s =>
  (Ok tt, set_TRANSCRIPTION_ERRORS (S (TRANSCRIPTION_ERRORS s))
            (log_call "TRANSCRIPTION_ERRORS.inc" s)).

Definition TRANSCRIPTION_DURATION_observe (v : Time) : M unit := fun s =>
  (Ok tt, set_TRANSCRIPTION_DURATION (TRANSCRIPTION_DURATION s ++ [v])
            (log_call "TRANSCRIPTION_DURATION.observe" s)).

Definition INFERENCE_DURATION_observe (v : Time) : M unit := fun s =>
  (Ok tt, set_INFERENCE_DURATION (INFERENCE_DURATION s ++ [v])
            (log_call "INFERENCE_DURATION.observe" s)).

Definition AUDIO_LOAD_DURATION_observe (v : Time) : M unit := fun s =>
  (Ok tt, set_AUDIO_LOAD_DURATION (AUDIO_LOAD_DURATION s ++ [v])
            (log_call "AUDIO_LOAD_DURATION.observe" s)).

Definition PROCESSING_DURATION_observe (v : Time) : M unit := fun s =>
  (Ok tt, set_PROCESSING_DURATION (PROCESSING_DURATION s ++ [v])
            (log_call "PROCESSING_DURATION.observe" s)).

Definition DECODE_DURATION_observe (v : Time) : M unit := fun s =>
  (Ok tt, set_DECODE_DURATION (DECODE_DURATION s ++ [v])
            (log_call "DECODE_DURATION.observe" s)).

Definition MODEL_LOADED_set (z : Z) : M unit := fun s =>
  (Ok tt, set_MODEL_LOADED z (log_call "MODEL_LOADED.set" s)).

Definition assign_model_loaded (b : bool) : M unit := fun s =>
  (Ok tt, set_model_loaded b s).

Definition assign_processor (p : Processor) : M unit := fun s =>
  (Ok tt, set_processor (Some p) s).

Definition assign_whisper_model (m : Model) : M unit := fun s =>
  (Ok tt, set_whisper_model (Some m) s).

Definition assign_temp_file_path (p : option pystr) : M unit := fun s =>
  (Ok tt, set_temp_file_path p s).

(** *** Temporary files *)

Definition FileExistsError : Exn :=
  {| exn_msg := py "[Errno 17] No usable temporary file name found" |}.

Definition FileNotFoundError (p : pystr) : Exn :=
  {| exn_msg := py "[Errno 2] No such file or directory: '" ++ p ++ py "'" |}.

Definition IndexError : Exn := {| exn_msg := py "list index out of range" |}.

(** [tempfile.NamedTemporaryFile(delete=False, suffix=suffix)]: the file
    [<dir>/<prefix><random><suffix>] is created empty and exclusively (a
    name that exists is never taken), and stays on disk when closed. *)
Definition NamedTemporaryFile (suffix : pystr) : M pystr := fun s =>
  let s1 := log_call "tempfile.NamedTemporaryFile" s in
  match ext_mkstemp host (fs s) with
  | Raise e => (Raise e, s1)
  | Ok stem =>
      let name := stem ++ suffix in
      match fs s !! name with
      | Some _ => (Raise FileExistsError, s1)
      | None => (Ok name, set_fs (<[name := []]> (fs s)) s1)
      end
  end.

Definition temp_file_write (name : pystr) (content : list byte) : M unit :=
  fun s =>
    let s1 := log_call "temp_file.write" s in
    match ext_write_fault host name content with
    | Some e => (Raise e, s1)
    | None => (Ok tt, set_fs (alter (fun old => old ++ content) name (fs s)) s1)
    end.

Definition temp_file_flush (name : pystr) : M unit := fun s =>
  let s1 := log_call "temp_file.flush" s in
  match ext_flush_fault host name with
  | Some e => (Raise e, s1)
  | None => (Ok tt, s1)
  end.

(** [__exit__] of the temporary file: it is closed, not deleted. *)
Definition temp_file_close : M unit := call "temp_file.close".

(** [os.unlink(p)] *)
Definition os_unlink (p : pystr) : M unit := fun s =>
  let s1 := set_unlink_calls (S (unlink_calls s)) (log_call "os.unlink" s) in
  match ext_unlink_fault host (unlink_calls s) p with
  | Some e => (Raise e, s1)
  | None =>
      match fs s !! p with
      | Some _ => (Ok tt, set_fs (delete p (fs s)) s1)
      | None => (Raise (FileNotFoundError p), s1)
      end
  end.

(** [if temp_file_path:] *)
Definition truthy_path (p : option pystr) : option pystr :=
  match p with
  | Some q => if truthy_str q then Some q else None
  | None => None
  end.

(** ** [load_whisper_model] (lines 40-65) and the module's start (line 68) *)

Definition device_name : pystr :=
  if cuda_is_available host then py "cuda" else py "cpu".

Definition load_whisper_model : M bool :=
  try_except
    (logger_info;;
     let model_name := py "openai/whisper-large-v3-turbo" in
     p ← ext "WhisperProcessor.from_pretrained"
           (ext_processor_from_pretrained host model_name);
     assign_processor p;;
     m ← ext "WhisperForConditionalGeneration.from_pretrained"
           (ext_model_from_pretrained host model_name
              (if cuda_is_available host then float16 else float32));
     assign_whisper_model m;;
     let device := device_name in
     m ← ext "whisper_model.to" (ext_model_to host m device);
     assign_whisper_model m;;
     logger_info;;
     MODEL_LOADED_set 1;;
     mret true)
    (fun e =>
       logger_error;;
       MODEL_LOADED_set 0;;
       mret false).

(** [model_loaded = load_whisper_model()] *)
Definition startup : M unit :=
  b ← load_whisper_model;
  assign_model_loaded b.

(** ** [load_audio_file] (lines 70-86) *)

Definition torchaudio_load (file_path : pystr) : M (Tensor * Z) := fun s =>
  ext "torchaudio.load" (ext_torchaudio_load host (fs s) file_path) s.

Definition librosa_load (file_path : pystr) (sr : Z) (mono : bool)
  : M (Waveform * Z) := fun s =>
  ext "librosa.load" (ext_librosa_load host (fs s) file_path sr mono) s.

(** The [try] body, lines 73-81. *)
Definition primary_decode (file_path : pystr) : M Waveform :=
  '(waveform, sample_rate) ← torchaudio_load file_path;
  waveform ←
    (if 1 <? shape0 host waveform
     then ext "torch.mean" (ext_torch_mean host waveform)
     else mret waveform);
  waveform ←
    (if negb (sample_rate =? 16000)
     then ext "torchaudio.transforms.Resample"
            (ext_Resample host sample_rate 16000 waveform)
     else mret waveform);
  ext "waveform.squeeze.numpy" (ext_squeeze_numpy host waveform).

(** The [except] block, lines 83-86. *)
Definition fallback_decode (file_path : pystr) (e : Exn) : M Waveform :=
  logger_warning;;
  '(waveform, sample_rate) ← librosa_load file_path 16000 true;
  mret waveform.

Definition load_audio_file (file_path : pystr) : M Waveform :=
  try_except (primary_decode file_path) (fallback_decode file_path).

(** ** [transcribe] (lines 88-188) *)

Definition not_loaded_payload : json :=
  JObj [("error"%string, JStr (py "Whisper model not loaded"))].

Definition error_payload (e : Exn) : json :=
  JObj [("error"%string, JStr (py "Transcription failed: " ++ exn_msg e))].

(** The locals of the [try] body that the lines after step 7 read. *)
Record Measured := {
  audio_load_time : Time;
  process_time : Time;
  device : Device;
  inference_time : Time;
  transcription : pystr;
  decode_time : Time;
}.

Definition success_payload (r : Measured) (total_time : Time) : json :=
  JObj [("transcription"%string, JStr (strip (transcription r)));
        ("metrics"%string,
         JObj [("total_time"%string, JNum (round2 host total_time));
               ("audio_load_time"%string, JNum (round2 host (audio_load_time r)));
               ("processing_time"%string, JNum (round2 host (process_time r)));
               ("inference_time"%string, JNum (round2 host (inference_time r)));
               ("decode_time"%string, JNum (round2 host (decode_time r)));
               ("device"%string, JStr (str_device host (device r)))])].

(** Lines 97-100: the request counter, [start_time], [temp_file_path = None]. *)
Definition prologue : M Time :=
  TRANSCRIPTION_REQUESTS_inc;;
  start_time ← time_time;
  assign_temp_file_path None;;
  mret start_time.

(** Step 3, lines 104-109. *)
Definition save_upload (audio_file : UploadFile) : M pystr :=
  let file_extension := file_extension (filename audio_file) in
  temp_file ← NamedTemporaryFile file_extension;
  finally_
    (content ← ext "audio_file.read" (read audio_file);
     temp_file_write temp_file content;;
     temp_file_flush temp_file;;
     assign_temp_file_path (Some temp_file);;
     mret temp_file)
    temp_file_close.

(** Step 4, lines 111-115. *)
Definition timed_load (path : pystr) : M (Waveform * Time) :=
  audio_load_start ← time_time;
  audio ← load_audio_file path;
  t ← time_time;
  let audio_load_time := fsub host t audio_load_start in
  AUDIO_LOAD_DURATION_observe audio_load_time;;
  mret (audio, audio_load_time).

(** Step 5, lines 118-131. *)
Definition timed_process (whisper_model : Model) (processor : Processor)
    (audio : Waveform) : M (Inputs * Device * Time) :=
  process_start ← time_time;
  inputs ← ext "processor" (ext_processor_call host processor audio);
  t ← time_time;
  let process_time := fsub host t process_start in
  PROCESSING_DURATION_observe process_time;;
  device ← ext "whisper_model.parameters.device"
             (ext_parameters_device host whisper_model);
  inputs ← ext "inputs.to" (ext_inputs_to host inputs device);
  mret (inputs, device, process_time).

(** Step 6, lines 134-143. *)
Definition timed_generate (whisper_model : Model) (inputs : Inputs)
  : M (Ids * Time) :=
  inference_start ← time_time;
  predicted_ids ← ext "whisper_model.generate"
                    (ext_generate host whisper_model inputs);
  t ← time_time;
  let inference_time := fsub host t inference_start in
  INFERENCE_DURATION_observe inference_time;;
  mret (predicted_ids, inference_time).

(** Step 7, lines 146-149. *)
Definition timed_decode (processor : Processor) (predicted_ids : Ids)
  : M (pystr * Time) :=
  decode_start ← time_time;
  texts ← ext "processor.batch_decode"
            (ext_batch_decode host processor predicted_ids);
  transcription ← match texts with
                  | [] => raise IndexError
                  | t :: _ => mret t
                  end;
  t ← time_time;
  let decode_time := fsub host t decode_start in
  DECODE_DURATION_observe decode_time;;
  mret (transcription, decode_time).

(** Steps 3-7 in sequence, lines 104-149. *)
Definition steps_3_7 (whisper_model : Model) (processor : Processor)
    (audio_file : UploadFile) : M Measured :=
  path ← save_upload audio_file;
  '(audio, audio_load_time) ← timed_load path;
  '(inputs, device, process_time) ← timed_process whisper_model processor audio;
  '(predicted_ids, inference_time) ← timed_generate whisper_model inputs;
  '(transcription, decode_time) ← timed_decode processor predicted_ids;
  mret {| audio_load_time := audio_load_time; process_time := process_time;
          device := device; inference_time := inference_time;
          transcription := transcription; decode_time := decode_time |}.

(** The [try] body, lines 102-175. *)
Definition transcribe_try (whisper_model : Model) (processor : Processor)
    (audio_file : UploadFile) (start_time : Time) : M json :=
  r ← steps_3_7 whisper_model processor audio_file;
  t ← time_time;
  let total_time := fsub host t start_time in
  TRANSCRIPTION_DURATION_observe total_time;;
  logger_info;;
  temp_file_path ← get temp_file_path;
  match truthy_path temp_file_path with
  | Some p => os_unlink p
  | None => mret tt
  end;;
  mret (success_payload r total_time).

(** The [except Exception as e] block, lines 177-188. *)
Definition transcribe_except (start_time : Time) (e : Exn) : M json :=
  TRANSCRIPTION_ERRORS_inc;;
  t ← time_time;
  let total_time := fsub host t start_time in
  logger_error;;
  temp_file_path ← get temp_file_path;
  match truthy_path temp_file_path with
  | Some p => try_except (os_unlink p) (fun _ => mret tt)
  | None => mret tt
  end;;
  mret (error_payload e).

Definition is_None {A} (o : option A) : bool :=
  match o with None => true | Some _ => false end.

(** Line 93:
    [not model_loaded or whisper_model is None or processor is None]. *)
Definition not_ready (s : State) : bool :=
  negb (model_loaded s) || is_None (whisper_model s) || is_None (processor s).

(** The two handles that a request past line 93 uses. *)
Definition ready_handles (s : State) : option (Model * Processor) :=
  match model_loaded s, whisper_model s, processor s with
  | true, Some m, Some p => Some (m, p)
  | _, _, _ => None
  end.

Definition transcribe (audio_file : UploadFile) : M json := fun s =>
  match ready_handles s with
  | None => (Ok not_loaded_payload, s)
  | Some (whisper_model, processor) =>
      (start_time ← prologue;
       try_except (transcribe_try whisper_model processor audio_file start_time)
                  (transcribe_except start_time)) s
  end.

(** The state in which the [try] block of an accepted request starts. *)
Definition accepted (s : State) : State := (prologue s).2.

(** ** The Audio Loader as the specification words it

    Section 4.2: (1) attempt the primary decode; average a multi-channel
    source to mono; resample when the source rate is not 16000 Hz.  (2) On
    any failure in step 1 fall back to the secondary decoder, configured
    for mono 16 kHz.  (3) If the fallback fails, the failure propagates.
    Written over the host's answers alone, without state or [try]. *)

Definition primary_decode_spec (files : gmap pystr (list byte))
    (path : pystr) : Res Waveform :=
  match ext_torchaudio_load host files path with
  | Raise e => Raise e
  | Ok (w, rate) =>
      match (if 1 <? shape0 host w then ext_torch_mean host w else Ok w) with
      | Raise e => Raise e
      | Ok mono =>
          match (if rate =? 16000 then Ok mono
                 else ext_Resample host rate 16000 mono) with
          | Raise e => Raise e
          | Ok resampled => ext_squeeze_numpy host resampled
          end
      end
  end.

Definition fallback_decode_spec (files : gmap pystr (list byte))
    (path : pystr) : Res Waveform :=
  match ext_librosa_load host files path 16000 true with
  | Ok (w, _) => Ok w
  | Raise e => Raise e
  end.

Definition load_audio_spec (files : gmap pystr (list byte))
    (path : pystr) : Res Waveform :=
  match primary_decode_spec files path with
  | Ok w => Ok w
  | Raise _ => fallback_decode_spec files path
  end.

Definition raises {A} (r : Res A) : Prop :=
  match r with Raise _ => True | Ok _ => False end.

(** ** Vocabulary for frame properties *)

(** [m] leaves the observation [f] of the state as it found it, on both
    exits. *)
Definition keeps {A X} (f : State -> X) (m : M A) : Prop :=
  forall s, f (m s).2 = f s.

(** The calls [m] makes all satisfy [P]. *)
Definition logs_only {A} (P : string -> Prop) (m : M A) : Prop :=
  forall s, exists tl, trace (m s).2 = trace s ++ tl /\ Forall P tl.

End Service.

(** ** A concrete host

    Carriers: times in hundredths of a second, a tensor as its number of
    channels and its sample rate, a waveform as its sample rate, the model
    as the device name it was moved to.  The n-th clock reading is
    [25 * n]; the decoders fail on an empty file; [os.unlink] fails on the
    calls that [unlink_faults] lists. *)
Module Demo.

Definition decoder_error : Exn := {| exn_msg := py "Failed to open the input" |}.
Definition librosa_error : Exn := {| exn_msg := py "Format not recognised" |}.
Definition permission_error : Exn :=
  {| exn_msg := py "[Errno 13] Permission denied" |}.
Definition disconnect_error : Exn := {| exn_msg := py "client disconnected" |}.
Definition cuda_oom : Exn := {| exn_msg := py "CUDA out of memory" |}.

Definition is_empty_file (files : gmap pystr (list byte)) (p : pystr) : bool :=
  match files !! p with
  | Some (_ :: _) => false
  | _ => true
  end.

Definition demo_host (cuda : bool) (generate_fails : bool)
    (unlink_faults : list nat)
  : @Host Z (Z * Z) Z pystr unit unit unit pystr :=
  {| clock := fun n => 25 * Z.of_nat n;
     fsub := Z.sub;
     round2 := fun t => t;
     str_device := fun d => d;
     cuda_is_available := cuda;
     ext_processor_from_pretrained := fun _ => Ok tt;
     ext_model_from_pretrained := fun _ _ => Ok (py "cpu");
     ext_model_to := fun _ d => Ok d;
     ext_processor_call := fun _ _ => Ok tt;
     ext_parameters_device := fun m => Ok m;
     ext_inputs_to := fun i _ => Ok i;
     ext_generate := fun _ _ => if generate_fails then Raise cuda_oom else Ok tt;
     ext_batch_decode := fun _ _ => Ok [py " hello world "];
     ext_torchaudio_load := fun files p =>
       if is_empty_file files p then Raise decoder_error else Ok ((2, 44100), 44100);
     shape0 := fun t => t.1;
     ext_torch_mean := fun t => Ok (1, t.2);
     ext_Resample := fun _ new t => Ok (t.1, new);
     ext_squeeze_numpy := fun t => Ok t.2;
     ext_librosa_load := fun files p sr _ =>
       if is_empty_file files p then Raise librosa_error else Ok (sr, sr);
     ext_mkstemp := fun _ => Ok (py "/tmp/tmpk3v9x2ab");
     ext_write_fault := fun _ _ => None;
     ext_flush_fault := fun _ => None;
     ext_unlink_fault := fun n _ =>
       if bool_decide (n ∈ unlink_faults) then Some permission_error else None |}.

(** The state after a start on [h], from an empty process. *)
Definition init_state : @State Z pystr unit :=
  mkState false None None 0 [] [] [] [] [] 0 0 ∅ None 0 0 [].

Definition started (h : @Host Z (Z * Z) Z pystr unit unit unit pystr)
  : @State Z pystr unit :=
  (startup h init_state).2.

Definition clip : UploadFile :=
  {| filename := Some (py "clip.mp3");
     read := Ok [x52; x49; x46; x46]%byte |}.

Definition empty_clip : UploadFile :=
  {| filename := Some (py "empty.ogg"); read := Ok [] |}.

Definition broken_upload : UploadFile :=
  {| filename := Some (py "clip.mp3"); read := Raise disconnect_error |}.

End Demo.

(** ** The observability endpoints and the request loop *)

Section Endpoints.

Context {Time Tensor Waveform Model Processor Inputs Ids Device : Type}.
Variable host : @Host Time Tensor Waveform Model Processor Inputs Ids Device.

(** [root], lines 190-196. *)
Definition root (s : @State Time Model Processor) : @json Time :=
  let model_status :=
    if model_loaded s then py "loaded" else py "failed to load" in
  JObj [("message"%string,
         JStr (py "Whisper Large V3 Speech-to-Text API is up and running! Model status: "
               ++ model_status))].

(** [health_check], lines 198-207. *)
Definition health_check (s : @State Time Model Processor) : @json Time :=
  JObj [("status"%string,
         JStr (if model_loaded s then py "healthy" else py "unhealthy"));
        ("model_loaded"%string, JBool (model_loaded s));
        ("device"%string,
         JStr (if cuda_is_available host then py "cuda" else py "cpu"))].

(** Requests to [/transcribe/] handled one after another, in the order
    given; the bodies are returned in the same order. *)
Fixpoint serve (requests : list UploadFile) : @M Time Model Processor (list json) :=
  match requests with
  | [] => mret []
  | audio_file :: rest =>
      body ← transcribe host audio_file;
      bodies ← serve rest;
      mret (body :: bodies)
  end.

(** A body with an ["error"] key. *)
Definition is_error_body (j : @json Time) : bool :=
  match json_get "error" j with Some _ => true | None => false end.

(** [fs[q]] is [c] and [temp_file_path] does not name [q]. *)
Definition file_safe (q : pystr) (c : list byte)
    (s : @State Time Model Processor) : Prop :=
  fs s !! q = Some c /\ temp_file_path s <> Some q.

(** [m] keeps the invariant [I] on both exits, and returns only values
    that satisfy [Q]. *)
Definition preserves {A} (I : @State Time Model Processor -> Prop)
    (Q : A -> Prop) (m : @M Time Model Processor A) : Prop :=
  forall s, I s ->
    I (m s).2 /\ forall a, (m s).1 = Ok a -> Q a.

(** The load flag, the model-loaded gauge and the readiness check of line
    93 say the same thing. *)
Definition consistent (s : @State Time Model Processor) : Prop :=
  (model_loaded s = true /\ MODEL_LOADED s = 1 /\ not_ready s = false)
  \/ (model_loaded s = false /\ MODEL_LOADED s = 0 /\ not_ready s = true).

End Endpoints.

(** A processor whose [batch_decode] returns an empty batch, on the
    carriers of [Demo]. *)
Module DemoEmptyBatch.

Definition empty_batch_host
  : @Host Z (Z * Z) Z pystr unit unit unit pystr :=
  let h := Demo.demo_host false false [] in
  {| clock := clock h;
     fsub := fsub h;
     round2 := round2 h;
     str_device := str_device h;
     cuda_is_available := cuda_is_available h;
     ext_processor_from_pretrained := ext_processor_from_pretrained h;
     ext_model_from_pretrained := ext_model_from_pretrained h;
     ext_model_to := ext_model_to h;
     ext_processor_call := ext_processor_call h;
     ext_parameters_device := ext_parameters_device h;
     ext_inputs_to := ext_inputs_to h;
     ext_generate := ext_generate h;
     ext_batch_decode := fun _ _ => Ok [];
     ext_torchaudio_load := ext_torchaudio_load h;
     shape0 := shape0 h;
     ext_torch_mean := ext_torch_mean h;
     ext_Resample := ext_Resample h;
     ext_squeeze_numpy := ext_squeeze_numpy h;
     ext_librosa_load := ext_librosa_load h;
     ext_mkstemp := ext_mkstemp h;
     ext_write_fault := ext_write_fault h;
     ext_flush_fault := ext_flush_fault h;
     ext_unlink_fault := ext_unlink_fault h |}.

End DemoEmptyBatch.

(** * Properties *)

Example splitext_mp3 :
  os_path_splitext (py "talk.mp3") = (py "talk", py ".mp3").
Proof. reflexivity. Qed.

Example splitext_dotfile :
  os_path_splitext (py "dir.d/.hidden") = (py "dir.d/.hidden", []).
Proof. reflexivity. Qed.

Example splitext_two_dots :
  os_path_splitext (py "a.tar.gz") = (py "a.tar", py ".gz").
Proof. reflexivity. Qed.

Example strip_example :
  strip (py "  hello world " ++ [10%N]) = py "hello world".
Proof. reflexivity. Qed.

Example demo_success :
  (transcribe (Demo.demo_host false false []) Demo.clip
     (Demo.started (Demo.demo_host false false []))).1
  = Ok (JObj [("transcription"%string, JStr (py "hello world"));
              ("metrics"%string,
               JObj [("total_time"%string, JNum 225);
                     ("audio_load_time"%string, JNum 25);
                     ("processing_time"%string, JNum 25);
                     ("inference_time"%string, JNum 25);
                     ("decode_time"%string, JNum 25);
                     ("device"%string, JStr (py "cpu"))])]).
Proof. vm_compute. reflexivity. Qed.

Section MonadLaws.

Context {Time Model Processor : Type}.

Local Abbreviation St := (@State Time Model Processor).
Local Abbreviation Prog := (@M Time Model Processor).

Lemma bind_run {A B} (m : Prog A) (k : A -> Prog B) (s : St) :
  (m ≫= k) s =
  match m s with
  | (Ok a, s') => k a s'
  | (Raise e, s') => (Raise e, s')
  end.
Proof. reflexivity. Qed.

Lemma bind_Ok {A B} (m : Prog A) (k : A -> Prog B) s a s1 :
  m s = (Ok a, s1) -> (m ≫= k) s = k a s1.
Proof. intros H. rewrite bind_run, H. reflexivity. Qed.

Lemma bind_Raise {A B} (m : Prog A) (k : A -> Prog B) s e s1 :
  m s = (Raise e, s1) -> (m ≫= k) s = (Raise e, s1).
Proof. intros H. rewrite bind_run, H. reflexivity. Qed.

Lemma bind_Ok_inv {A B} (m : Prog A) (k : A -> Prog B) s b s' :
  (m ≫= k) s = (Ok b, s') ->
  exists a s1, m s = (Ok a, s1) /\ k a s1 = (Ok b, s').
Proof.
  rewrite bind_run. destruct (m s) as [[a|e] s1]; intros H.
  - exists a, s1. split; [reflexivity | exact H].
  - discriminate H.
Qed.

Lemma bind_Raise_inv {A B} (m : Prog A) (k : A -> Prog B) s e s' :
  (m ≫= k) s = (Raise e, s') ->
  m s = (Raise e, s') \/ exists a s1, m s = (Ok a, s1) /\ k a s1 = (Raise e, s').
Proof.
  rewrite bind_run. destruct (m s) as [[a|e0] s1]; intros H.
  - right. exists a, s1. split; [reflexivity | exact H].
  - left. by simplify_eq.
Qed.

Lemma finally_Ok_inv {A} (m : Prog A) (fin : Prog unit) s a s' :
  finally_ m fin s = (Ok a, s') ->
  exists s1, m s = (Ok a, s1) /\ fin s1 = (Ok tt, s').
Proof.
  unfold finally_. destruct (m s) as [[a0|e] s1]; intros H.
  - exists s1. destruct (fin s1) as [[[]|e'] s2]; [| discriminate H].
    injection H as -> ->. by split.
  - destruct (fin s1) as [[[]|e'] s2]; discriminate H.
Qed.

(** *** [keeps] through the combinators *)

Lemma keeps_ret {A X} (f : St -> X) (a : A) : keeps f (mret a : Prog A).
Proof. intros s. reflexivity. Qed.

Lemma keeps_raise {A X} (f : St -> X) e : keeps f (raise e : Prog A).
Proof. intros s. reflexivity. Qed.

Lemma keeps_get {A X} (f : St -> X) (g : St -> A) : keeps f (get g).
Proof. intros s. reflexivity. Qed.

Lemma keeps_bind {A B X} (f : St -> X) (m : Prog A) (k : A -> Prog B) :
  keeps f m -> (forall a, keeps f (k a)) -> keeps f (m ≫= k).
Proof.
  intros Hm Hk s. rewrite bind_run. specialize (Hm s).
  destruct (m s) as [[a|e] s1]; simpl in *.
  - rewrite Hk. exact Hm.
  - exact Hm.
Qed.

Lemma keeps_try_except {A X} (f : St -> X) (m : Prog A) (h : Exn -> Prog A) :
  keeps f m -> (forall e, keeps f (h e)) -> keeps f (try_except m h).
Proof.
  intros Hm Hh s. unfold try_except. specialize (Hm s).
  destruct (m s) as [[a|e] s1]; simpl in *.
  - exact Hm.
  - rewrite Hh. exact Hm.
Qed.

Lemma keeps_finally {A X} (f : St -> X) (m : Prog A) (fin : Prog unit) :
  keeps f m -> keeps f fin -> keeps f (finally_ m fin).
Proof.
  intros Hm Hf s. unfold finally_. specialize (Hm s).
  destruct (m s) as [[a|e] s1]; simpl in *;
    specialize (Hf s1); destruct (fin s1) as [[[]|e'] s2]; simpl in *; congruence.
Qed.

(** *** [logs_only] through the combinators *)

Lemma logs_only_ret {A} P (a : A) : logs_only P (mret a : Prog A).
Proof. intros s. exists []. rewrite app_nil_r. split; [reflexivity | constructor]. Qed.

Lemma logs_only_raise {A} P e : logs_only P (raise e : Prog A).
Proof. intros s. exists []. rewrite app_nil_r. split; [reflexivity | constructor]. Qed.

Lemma logs_only_get {A} P (g : St -> A) : logs_only P (get g).
Proof. intros s. exists []. rewrite app_nil_r. split; [reflexivity | constructor]. Qed.

Lemma logs_only_bind {A B} P (m : Prog A) (k : A -> Prog B) :
  logs_only P m -> (forall a, logs_only P (k a)) -> logs_only P (m ≫= k).
Proof.
  intros Hm Hk s. rewrite bind_run. destruct (Hm s) as (tl & Htl & HP).
  destruct (m s) as [[a|e] s1]; simpl in *.
  - destruct (Hk a s1) as (tl2 & Htl2 & HP2). exists (tl ++ tl2).
    rewrite Htl2, Htl, app_assoc. split; [reflexivity | by apply Forall_app].
  - exists tl. split; assumption.
Qed.

Lemma logs_only_try_except {A} P (m : Prog A) (h : Exn -> Prog A) :
  logs_only P m -> (forall e, logs_only P (h e)) -> logs_only P (try_except m h).
Proof.
  intros Hm Hh s. unfold try_except. destruct (Hm s) as (tl & Htl & HP).
  destruct (m s) as [[a|e] s1]; simpl in *.
  - exists tl. split; assumption.
  - destruct (Hh e s1) as (tl2 & Htl2 & HP2). exists (tl ++ tl2).
    rewrite Htl2, Htl, app_assoc. split; [reflexivity | by apply Forall_app].
Qed.

Lemma logs_only_finally {A} P (m : Prog A) (fin : Prog unit) :
  logs_only P m -> logs_only P fin -> logs_only P (finally_ m fin).
Proof.
  intros Hm Hf s. unfold finally_. destruct (Hm s) as (tl & Htl & HP).
  destruct (m s) as [[a|e] s1]; simpl in *;
    destruct (Hf s1) as (tl2 & Htl2 & HP2);
    destruct (fin s1) as [[[]|e'] s2]; simpl in *;
    exists (tl ++ tl2); rewrite Htl2, Htl, app_assoc;
    (split; [reflexivity | by apply Forall_app]).
Qed.

End MonadLaws.

(** ** Strings: [strip] and [splitext] *)

Lemma lstrip_split (s : pystr) :
  exists l, s = l ++ lstrip s /\ Forall (fun c => py_isspace c = true) l.
Proof.
  induction s as [|c r IH]; simpl.
  - exists []. split; [reflexivity | constructor].
  - destruct (py_isspace c) eqn:Hc.
    + destruct IH as (l & Hl & Hall). exists (c :: l). split.
      * simpl. congruence.
      * constructor; assumption.
    + exists []. split; [reflexivity | constructor].
Qed.

Lemma lstrip_head (s : pystr) c r : lstrip s = c :: r -> py_isspace c = false.
Proof.
  induction s as [|x t IH]; simpl; [discriminate |].
  destruct (py_isspace x) eqn:Hx; [exact IH |].
  intros H. injection H as -> _. exact Hx.
Qed.

Lemma rstrip_split (s : pystr) :
  exists r, s = rstrip s ++ r /\ Forall (fun c => py_isspace c = true) r.
Proof.
  unfold rstrip. destruct (lstrip_split (reverse s)) as (l & Hl & Hall).
  exists (reverse l). split.
  - rewrite <- reverse_app, <- Hl, reverse_involutive. reflexivity.
  - by apply Forall_reverse.
Qed.

Lemma rstrip_last (s : pystr) c r : rstrip s = r ++ [c] -> py_isspace c = false.
Proof.
  unfold rstrip. intros H. apply (f_equal reverse) in H.
  rewrite reverse_involutive, reverse_app in H. simpl in H.
  exact (lstrip_head _ _ _ H).
Qed.

(** [strip] removes a run of whitespace on each side, and nothing else. *)
Lemma strip_split (s : pystr) :
  exists l r, s = l ++ strip s ++ r
              /\ Forall (fun c => py_isspace c = true) l
              /\ Forall (fun c => py_isspace c = true) r.
Proof.
  unfold strip. destruct (lstrip_split s) as (l & Hl & Hall).
  destruct (rstrip_split (lstrip s)) as (r & Hr & Harr).
  exists l, r. split; [| split; assumption].
  rewrite <- Hr. exact Hl.
Qed.

Lemma strip_no_trailing_space (s : pystr) c r :
  strip s = r ++ [c] -> py_isspace c = false.
Proof. unfold strip. apply rstrip_last. Qed.

Lemma strip_no_leading_space (s : pystr) c r :
  strip s = c :: r -> py_isspace c = false.
Proof.
  unfold strip. intros H.
  destruct (rstrip_split (lstrip s)) as (t & Ht & _).
  rewrite H in Ht. simpl in Ht. exact (lstrip_head _ _ _ Ht).
Qed.

Lemma rfind_from_lower (c : N) (p : pystr) (i found : Z) :
  -1 <= found -> 0 <= i -> -1 <= rfind_from c p i found.
Proof.
  revert i found. induction p as [|x r IH]; simpl; intros i found Hf Hi.
  - exact Hf.
  - apply IH; [destruct (x =? c)%N |]; lia.
Qed.

Lemma rfind_from_absent (c : N) (p : pystr) (i found : Z) :
  c ∉ p -> rfind_from c p i found = found.
Proof.
  revert i found. induction p as [|x r IH]; simpl; intros i found Hc.
  - reflexivity.
  - apply not_elem_of_cons in Hc as [Hne Hr].
    destruct (N.eqb_spec x c) as [->|_]; [done |]. by apply IH.
Qed.

(** A name without a dot has no extension. *)
Lemma splitext_no_dot (name : pystr) :
  46%N ∉ name -> os_path_splitext name = (name, []).
Proof.
  intros Hdot. unfold os_path_splitext, _splitext, rfind.
  rewrite (rfind_from_absent 46%N name 0 (-1) Hdot).
  pose proof (rfind_from_lower 47%N name 0 (-1)) as Hsep.
  destruct (Z.ltb_spec (rfind_from 47%N name 0 (-1)) (-1)); [lia | reflexivity].
Qed.

Lemma str_or_empty (b : pystr) : str_or [] b = b.
Proof. reflexivity. Qed.

Lemma str_or_nonempty (a b : pystr) : a <> [] -> str_or a b = a.
Proof. destruct a; [congruence | reflexivity]. Qed.

Lemma splitext_empty : os_path_splitext [] = ([], []).
Proof. reflexivity. Qed.

(** The extension line 104 splits off is that of the filename itself when
    there is a non-empty one, and [".wav"] (from ["audio.wav"]) when the
    filename is [None] or empty. *)
Lemma file_extension_Some (name : pystr) :
  file_extension (Some name) = str_or (os_path_splitext name).2 (py ".wav").
Proof.
  unfold file_extension. simpl. destruct name as [|c r]; reflexivity.
Qed.

(** C10, as the code has it: the suffix of the temporary file is [".wav"]
    when the filename is absent, is empty, or splits to an empty
    extension (a name without a dot among them), and is the filename's own
    extension otherwise; so the suffix is [".wav"] exactly when the
    filename splits to an empty extension or to the extension [".wav"]
    itself. *)
Theorem file_extension_default (name : pystr) :
  file_extension None = py ".wav"
  /\ file_extension (Some []) = py ".wav"
  /\ ((os_path_splitext name).2 = [] -> file_extension (Some name) = py ".wav")
  /\ (46%N ∉ name -> file_extension (Some name) = py ".wav")
  /\ ((os_path_splitext name).2 <> [] ->
      file_extension (Some name) = (os_path_splitext name).2)
  /\ (file_extension (Some name) = py ".wav" <->
      (os_path_splitext name).2 = [] \/ (os_path_splitext name).2 = py ".wav").
Proof.
  rewrite !file_extension_Some.
  split; [reflexivity |]. split; [reflexivity |].
  split; [intros ->; reflexivity |].
  split; [intros H; rewrite (splitext_no_dot name H); reflexivity |].
  split; [apply str_or_nonempty |].
  destruct (os_path_splitext name).2 as [|c r] eqn:E; simpl.
  - split; [by left | reflexivity].
  - split; [by right | by intros [|]].
Qed.

(** C10, as the claim words it, fails: ["clip.wav"] gets the suffix
    [".wav"] although its extension is not empty. *)
Lemma file_extension_wav_without_default :
  ~ (forall name : pystr,
       file_extension (Some name) = py ".wav" <-> (os_path_splitext name).2 = []).
Proof.
  intros H. destruct (H (py "clip.wav")) as [H1 _].
  specialize (H1 eq_refl). discriminate H1.
Qed.

(** ** Tactics for running the program *)

(** The composite blocks of [app.py]. *)
Ltac unfold_blocks :=
  unfold transcribe_try, transcribe_except, steps_3_7, save_upload,
    timed_load, timed_process, timed_generate, timed_decode, prologue,
    load_audio_file, primary_decode, fallback_decode, load_whisper_model,
    startup in *.

(** One primitive operation on a given state. *)
Ltac run_primitives :=
  cbv [torchaudio_load librosa_load ext call logger_info logger_warning
       logger_error time_time TRANSCRIPTION_REQUESTS_inc
       TRANSCRIPTION_ERRORS_inc TRANSCRIPTION_DURATION_observe
       INFERENCE_DURATION_observe AUDIO_LOAD_DURATION_observe
       PROCESSING_DURATION_observe DECODE_DURATION_observe MODEL_LOADED_set
       assign_model_loaded assign_processor assign_whisper_model
       assign_temp_file_path NamedTemporaryFile temp_file_write
       temp_file_flush temp_file_close os_unlink raise get
       log_call set_model_loaded set_whisper_model set_processor
       set_TRANSCRIPTION_REQUESTS set_TRANSCRIPTION_DURATION
       set_INFERENCE_DURATION set_AUDIO_LOAD_DURATION
       set_PROCESSING_DURATION set_DECODE_DURATION set_TRANSCRIPTION_ERRORS
       set_MODEL_LOADED set_fs set_temp_file_path set_clock_reads
       set_unlink_calls] in *.

Ltac keeps_leaf :=
  let s := fresh "s" in
  intros s; run_primitives; simpl; repeat case_match; simpl; reflexivity.

Ltac solve_keeps :=
  unfold_blocks;
  repeat first
    [ apply keeps_ret
    | apply keeps_raise
    | apply keeps_get
    | apply keeps_bind; [| intros ]
    | apply keeps_try_except; [| intros ]
    | apply keeps_finally
    | match goal with
      | |- keeps _ (match ?x with _ => _ end) => destruct x
      end
    | keeps_leaf ].

Ltac logs_leaf :=
  let s := fresh "s" in
  intros s; run_primitives; simpl; repeat case_match; simpl;
  first [ exists []; rewrite app_nil_r; split; [reflexivity | constructor]
        | eexists [_]; split; [reflexivity | by repeat constructor] ].

Ltac solve_logs :=
  unfold_blocks;
  repeat first
    [ apply logs_only_ret
    | apply logs_only_raise
    | apply logs_only_get
    | apply logs_only_bind; [| intros ]
    | apply logs_only_try_except; [| intros ]
    | apply logs_only_finally
    | match goal with
      | |- logs_only _ (match ?x with _ => _ end) => destruct x
      end
    | logs_leaf ].

Section Properties.

Context {Time Tensor Waveform Model Processor Inputs Ids Device : Type}.
Variable host : @Host Time Tensor Waveform Model Processor Inputs Ids Device.

Local Abbreviation St := (@State Time Model Processor).
Local Abbreviation Prog := (@M Time Model Processor).

(** ** Frame properties of the blocks *)

Lemma steps_keep_errors m pr up :
  keeps TRANSCRIPTION_ERRORS (steps_3_7 host m pr up).
Proof. solve_keeps. Qed.

Lemma steps_keep_requests m pr up :
  keeps TRANSCRIPTION_REQUESTS (steps_3_7 host m pr up).
Proof. solve_keeps. Qed.

Lemma steps_keep_total m pr up :
  keeps TRANSCRIPTION_DURATION (steps_3_7 host m pr up).
Proof. solve_keeps. Qed.

Lemma try_keeps_errors m pr up t :
  keeps TRANSCRIPTION_ERRORS (transcribe_try host m pr up t).
Proof. solve_keeps. Qed.

Lemma try_keeps_requests m pr up t :
  keeps TRANSCRIPTION_REQUESTS (transcribe_try host m pr up t).
Proof. solve_keeps. Qed.

Lemma except_keeps_requests t e :
  keeps TRANSCRIPTION_REQUESTS (transcribe_except host t e).
Proof. solve_keeps. Qed.

Lemma except_keeps_total t e :
  keeps TRANSCRIPTION_DURATION (transcribe_except host t e).
Proof. solve_keeps. Qed.

Lemma try_logs m pr up t :
  logs_only (fun n => n <> "TRANSCRIPTION_REQUESTS.inc"%string)
    (transcribe_try host m pr up t).
Proof. solve_logs. Qed.

Lemma except_logs t e :
  logs_only (fun n => n <> "TRANSCRIPTION_REQUESTS.inc"%string)
    (transcribe_except host t e).
Proof. solve_logs. Qed.

Lemma prologue_keeps_errors : keeps TRANSCRIPTION_ERRORS (prologue host).
Proof. solve_keeps. Qed.

Lemma prologue_keeps_total : keeps TRANSCRIPTION_DURATION (prologue host).
Proof. solve_keeps. Qed.

(** ** The handler, block by block *)

Lemma not_ready_handles (s : St) :
  not_ready s = true <-> ready_handles s = None.
Proof.
  unfold not_ready, ready_handles.
  destruct (model_loaded s), (whisper_model s), (processor s); simpl;
    split; congruence.
Qed.

Lemma ready_handles_Some (s : St) :
  not_ready s = false -> exists m pr, ready_handles s = Some (m, pr).
Proof.
  intros H. destruct (ready_handles s) as [[m pr]|] eqn:E; [by eauto |].
  apply not_ready_handles in E. congruence.
Qed.

Lemma prologue_run (s : St) :
  prologue host s = (Ok (clock host (clock_reads s)), accepted host s).
Proof. reflexivity. Qed.

Lemma transcribe_ready up (s : St) m pr :
  ready_handles s = Some (m, pr) ->
  transcribe host up s =
  try_except (transcribe_try host m pr up (clock host (clock_reads s)))
             (transcribe_except host (clock host (clock_reads s)))
             (accepted host s).
Proof. intros H. unfold transcribe. rewrite H. reflexivity. Qed.

(** The [except] block always returns the error payload of the exception
    it was entered with, and counts it once, whatever [os.unlink] does. *)
Lemma except_returns t e (s : St) :
  exists s', transcribe_except host t e s = (Ok (error_payload e), s')
             /\ TRANSCRIPTION_ERRORS s' = S (TRANSCRIPTION_ERRORS s).
Proof.
  unfold transcribe_except.
  do 4 (erewrite bind_Ok by reflexivity).
  match goal with
  | |- context [truthy_path ?x] => destruct (truthy_path x) as [p|]
  end.
  - rewrite bind_run. unfold try_except.
    match goal with
    | |- context [os_unlink host p ?s0] =>
        assert (Hk : keeps TRANSCRIPTION_ERRORS (os_unlink host p))
          by solve_keeps;
        specialize (Hk s0);
        destruct (os_unlink host p s0) as [[[]|e'] s1]
    end; eexists; (split; [reflexivity | exact Hk]).
  - eexists. split; reflexivity.
Qed.

(** What the [try] block returns, when it returns, is a success payload. *)
Lemma try_returns_success m pr up t (s : St) resp s' :
  transcribe_try host m pr up t s = (Ok resp, s') ->
  exists r total, resp = success_payload host r total.
Proof.
  unfold transcribe_try. intros H.
  apply bind_Ok_inv in H as (r & s1 & _ & H).
  apply bind_Ok_inv in H as (t1 & s2 & _ & H).
  apply bind_Ok_inv in H as (? & s3 & _ & H).
  apply bind_Ok_inv in H as (? & s4 & _ & H).
  apply bind_Ok_inv in H as (? & s5 & _ & H).
  apply bind_Ok_inv in H as (? & s6 & _ & H).
  injection H as <- _. eauto.
Qed.

(** C1: every call of [transcribe] returns a body (it raises nothing), and
    the body has either a string under ["transcription"] together with an
    object under ["metrics"] and no ["error"], or a string under ["error"]
    and no ["transcription"]: one of the two, never both, never neither. *)
Theorem response_is_transcription_xor_error up (s : St) :
  exists resp s',
    transcribe host up s = (Ok resp, s')
    /\ ((is_JStr (json_get "transcription" resp) = true
         /\ is_JObj (json_get "metrics" resp) = true
         /\ json_get "error" resp = None)
        \/ (is_JStr (json_get "error" resp) = true
            /\ json_get "transcription" resp = None
            /\ json_get "metrics" resp = None)).
Proof.
  destruct (ready_handles s) as [[m pr]|] eqn:Hready.
  - rewrite (transcribe_ready up s m pr Hready). unfold try_except.
    destruct (transcribe_try host m pr up _ (accepted host s))
      as [[resp|e] s1] eqn:Htry.
    + exists resp, s1. split; [reflexivity |]. left.
      apply try_returns_success in Htry as (r & total & ->). by repeat split.
    + destruct (except_returns (clock host (clock_reads s)) e s1)
        as (s' & Hexc & _).
      exists (error_payload e), s'. split; [exact Hexc |]. right. by repeat split.
  - exists not_loaded_payload, s. unfold transcribe. rewrite Hready.
    split; [reflexivity |]. right. by repeat split.
Qed.

(** C4: a request that fails the check of line 93 gets exactly
    [{"error": "Whisper model not loaded"}] and leaves the whole state,
    both counters included, as it was; a request that passes it is
    answered with the request counter one higher, the increment being the
    first call the handler makes and the only one of its kind. *)
Theorem readiness_gate_and_request_counter up (s : St) :
  (not_ready s = true ->
   transcribe host up s
   = (Ok (JObj [("error"%string, JStr (py "Whisper model not loaded"))]), s))
  /\ (not_ready s = false ->
      exists resp s' tl,
        transcribe host up s = (Ok resp, s')
        /\ TRANSCRIPTION_REQUESTS s' = S (TRANSCRIPTION_REQUESTS s)
        /\ trace s' = trace s ++ "TRANSCRIPTION_REQUESTS.inc"%string :: tl
        /\ "TRANSCRIPTION_REQUESTS.inc"%string ∉ tl)%nat.
Proof.
  split.
  - intros H. apply not_ready_handles in H. unfold transcribe. by rewrite H.
  - intros H. apply ready_handles_Some in H as (m & pr & Hready).
    rewrite (transcribe_ready up s m pr Hready). unfold try_except.
    set (t0 := clock host (clock_reads s)).
    pose proof (try_keeps_requests m pr up t0 (accepted host s)) as Hreq.
    destruct (try_logs m pr up t0 (accepted host s)) as (tl1 & Htl1 & Hno1).
    destruct (transcribe_try host m pr up t0 (accepted host s))
      as [[resp|e] s1]; simpl in *.
    + exists resp, s1, ("time.time"%string :: tl1).
      split; [reflexivity |]. split; [by rewrite Hreq |].
      split; [rewrite Htl1; simpl; by rewrite <- !app_assoc |].
      rewrite not_elem_of_cons. split; [done |].
      intros Hin. rewrite Forall_forall in Hno1. by apply (Hno1 _ Hin).
    + destruct (except_returns t0 e s1) as (s' & Hexc & Hcount).
      pose proof (except_keeps_requests t0 e s1) as Hreq2.
      destruct (except_logs t0 e s1) as (tl2 & Htl2 & Hno2).
      rewrite Hexc in *. simpl in *.
      exists (error_payload e), s', ("time.time"%string :: tl1 ++ tl2).
      split; [reflexivity |]. split; [by rewrite Hreq2, Hreq |].
      split; [rewrite Htl2, Htl1; simpl; by rewrite <- !app_assoc |].
      rewrite not_elem_of_cons. split; [done |].
      intros Hin. apply elem_of_app in Hin as [Hin|Hin].
      * rewrite Forall_forall in Hno1. by apply (Hno1 _ Hin).
      * rewrite Forall_forall in Hno2. by apply (Hno2 _ Hin).
Qed.

(** C6: when steps 3-7 of an accepted request raise [e], the handler
    returns [{"error": "Transcription failed: " + str(e)}] and the error
    counter is exactly one higher than before the request. *)
Theorem failure_counted_once_and_reported up (s : St) m pr e s1 :
  ready_handles s = Some (m, pr) ->
  steps_3_7 host m pr up (accepted host s) = (Raise e, s1) ->
  exists s',
    transcribe host up s
    = (Ok (JObj [("error"%string,
                  JStr (py "Transcription failed: " ++ exn_msg e))]), s')
    /\ TRANSCRIPTION_ERRORS s' = S (TRANSCRIPTION_ERRORS s).
Proof.
  intros Hready Hsteps.
  rewrite (transcribe_ready up s m pr Hready). unfold try_except.
  assert (Htry : transcribe_try host m pr up (clock host (clock_reads s))
                   (accepted host s) = (Raise e, s1)).
  { unfold transcribe_try. by apply bind_Raise. }
  rewrite Htry.
  destruct (except_returns (clock host (clock_reads s)) e s1)
    as (s' & Hexc & Hcount).
  exists s'. split; [exact Hexc |].
  rewrite Hcount. f_equal.
  pose proof (steps_keep_errors m pr up (accepted host s)) as Hk.
  rewrite Hsteps in Hk. simpl in Hk. rewrite Hk. reflexivity.
Qed.

(** ** The stages of a request that succeed *)

Lemma time_time_Ok (s : St) t s' :
  time_time host s = (Ok t, s') ->
  t = clock host (clock_reads s) /\ clock_reads s' = S (clock_reads s).
Proof. unfold time_time. intros H. injection H as <- <-. by split. Qed.

Lemma ext_Ok {A} name (r : Res A) (s : St) a s' :
  ext name r s = (Ok a, s') -> r = Ok a.
Proof. unfold ext. intros H. by injection H as -> _. Qed.

Lemma ext_keeps_clock {A} name (r : Res A) : keeps (clock_reads : St -> nat) (ext name r).
Proof. solve_keeps. Qed.

Lemma load_keeps_clock path :
  keeps (clock_reads : St -> nat) (load_audio_file host path).
Proof. solve_keeps. Qed.

Lemma save_keeps_clock up : keeps (clock_reads : St -> nat) (save_upload host up).
Proof. solve_keeps. Qed.

(** From [m s = (r, s')] and [keeps f m]: [f s' = f s]. *)
Lemma keeps_run {A X} (f : St -> X) (m : Prog A) s r s' :
  keeps f m -> m s = (r, s') -> f s' = f s.
Proof. intros Hk H. specialize (Hk s). by rewrite H in Hk. Qed.

(** [f] is the same before and after the run [H : m s = (r, s')]. *)
Ltac kept f H :=
  let Hk := fresh "Hk" in
  lazymatch type of H with
  | ?m ?s = _ =>
      assert (Hk : keeps f m) by solve_keeps;
      apply (fun K => keeps_run f m _ _ _ K H) in Hk
  end.

(** Step 4 reads the clock twice, around the load, and observes the
    difference. *)
Lemma timed_load_Ok path (s : St) a t s' :
  timed_load host path s = (Ok (a, t), s') ->
  t = fsub host (clock host (S (clock_reads s))) (clock host (clock_reads s))
  /\ clock_reads s' = S (S (clock_reads s))
  /\ AUDIO_LOAD_DURATION s' = AUDIO_LOAD_DURATION s ++ [t].
Proof.
  unfold timed_load. intros H.
  apply bind_Ok_inv in H as (t0 & s1 & H0 & H).
  apply bind_Ok_inv in H as (a' & s2 & Hload & H).
  apply bind_Ok_inv in H as (t1 & s3 & H1 & H).
  apply bind_Ok_inv in H as ([] & s4 & Hobs & H).
  injection H as <- <- <-.
  kept (AUDIO_LOAD_DURATION : St -> _) H0.
  kept (AUDIO_LOAD_DURATION : St -> _) Hload.
  kept (AUDIO_LOAD_DURATION : St -> _) H1.
  kept (clock_reads : St -> _) Hload.
  kept (clock_reads : St -> _) Hobs.
  apply time_time_Ok in H0 as (-> & Hc1).
  apply time_time_Ok in H1 as (-> & Hc3).
  unfold AUDIO_LOAD_DURATION_observe in Hobs. injection Hobs as <-.
  simpl in *. repeat split; congruence.
Qed.

(** Step 5 likewise, around the processor call; the device it returns is
    the one the model's parameters are on. *)
Lemma timed_process_Ok m pr audio (s : St) inputs dev t s' :
  timed_process host m pr audio s = (Ok (inputs, dev, t), s') ->
  t = fsub host (clock host (S (clock_reads s))) (clock host (clock_reads s))
  /\ clock_reads s' = S (S (clock_reads s))
  /\ PROCESSING_DURATION s' = PROCESSING_DURATION s ++ [t]
  /\ ext_parameters_device host m = Ok dev.
Proof.
  unfold timed_process. intros H.
  apply bind_Ok_inv in H as (t0 & s1 & H0 & H).
  apply bind_Ok_inv in H as (i0 & s2 & Hcall & H).
  apply bind_Ok_inv in H as (t1 & s3 & H1 & H).
  apply bind_Ok_inv in H as ([] & s4 & Hobs & H).
  apply bind_Ok_inv in H as (d & s5 & Hdev & H).
  apply bind_Ok_inv in H as (i1 & s6 & Hto & H).
  injection H as <- <- <- <-.
  kept (PROCESSING_DURATION : St -> _) H0.
  kept (PROCESSING_DURATION : St -> _) Hcall.
  kept (PROCESSING_DURATION : St -> _) H1.
  kept (PROCESSING_DURATION : St -> _) Hdev.
  kept (PROCESSING_DURATION : St -> _) Hto.
  kept (clock_reads : St -> _) Hcall.
  kept (clock_reads : St -> _) Hobs.
  kept (clock_reads : St -> _) Hdev.
  kept (clock_reads : St -> _) Hto.
  apply time_time_Ok in H0 as (-> & Hc1).
  apply time_time_Ok in H1 as (-> & Hc3).
  apply ext_Ok in Hdev.
  unfold PROCESSING_DURATION_observe in Hobs. injection Hobs as <-.
  simpl in *. repeat split; congruence.
Qed.

(** Step 6, around [generate]. *)
Lemma timed_generate_Ok m inputs (s : St) ids t s' :
  timed_generate host m inputs s = (Ok (ids, t), s') ->
  t = fsub host (clock host (S (clock_reads s))) (clock host (clock_reads s))
  /\ clock_reads s' = S (S (clock_reads s))
  /\ INFERENCE_DURATION s' = INFERENCE_DURATION s ++ [t].
Proof.
  unfold timed_generate. intros H.
  apply bind_Ok_inv in H as (t0 & s1 & H0 & H).
  apply bind_Ok_inv in H as (i0 & s2 & Hcall & H).
  apply bind_Ok_inv in H as (t1 & s3 & H1 & H).
  apply bind_Ok_inv in H as ([] & s4 & Hobs & H).
  injection H as <- <- <-.
  kept (INFERENCE_DURATION : St -> _) H0.
  kept (INFERENCE_DURATION : St -> _) Hcall.
  kept (INFERENCE_DURATION : St -> _) H1.
  kept (clock_reads : St -> _) Hcall.
  kept (clock_reads : St -> _) Hobs.
  apply time_time_Ok in H0 as (-> & Hc1).
  apply time_time_Ok in H1 as (-> & Hc3).
  unfold INFERENCE_DURATION_observe in Hobs. injection Hobs as <-.
  simpl in *. repeat split; congruence.
Qed.

(** Step 7, around [batch_decode]; the text is the first of the batch. *)
Lemma timed_decode_Ok pr ids (s : St) text t s' :
  timed_decode host pr ids s = (Ok (text, t), s') ->
  t = fsub host (clock host (S (clock_reads s))) (clock host (clock_reads s))
  /\ clock_reads s' = S (S (clock_reads s))
  /\ DECODE_DURATION s' = DECODE_DURATION s ++ [t]
  /\ exists rest, ext_batch_decode host pr ids = Ok (text :: rest).
Proof.
  unfold timed_decode. intros H.
  apply bind_Ok_inv in H as (t0 & s1 & H0 & H).
  apply bind_Ok_inv in H as (texts & s2 & Hcall & H).
  apply bind_Ok_inv in H as (text0 & s3 & Hhd & H).
  apply bind_Ok_inv in H as (t1 & s4 & H1 & H).
  apply bind_Ok_inv in H as ([] & s5 & Hobs & H).
  injection H as <- <- <-.
  destruct texts as [|x rest]; [discriminate Hhd |].
  injection Hhd as <- <-.
  kept (DECODE_DURATION : St -> _) H0.
  kept (DECODE_DURATION : St -> _) Hcall.
  kept (DECODE_DURATION : St -> _) H1.
  kept (clock_reads : St -> _) Hcall.
  kept (clock_reads : St -> _) Hobs.
  apply time_time_Ok in H0 as (-> & Hc1).
  apply time_time_Ok in H1 as (-> & Hc3).
  apply ext_Ok in Hcall.
  unfold DECODE_DURATION_observe in Hobs. injection Hobs as <-.
  simpl in *. repeat split; try congruence. by exists rest.
Qed.

(** Steps 3-7, when none raises: eight clock readings, two around each
    of steps 4 to 7. *)
Lemma steps_Ok m pr up (s : St) r s' :
  steps_3_7 host m pr up s = (Ok r, s') ->
  let c := clock_reads s in
  audio_load_time r = fsub host (clock host (1 + c)) (clock host c)
  /\ process_time r = fsub host (clock host (3 + c)) (clock host (2 + c))
  /\ inference_time r = fsub host (clock host (5 + c)) (clock host (4 + c))
  /\ decode_time r = fsub host (clock host (7 + c)) (clock host (6 + c))
  /\ clock_reads s' = (8 + c)%nat
  /\ ext_parameters_device host m = Ok (device r)
  /\ exists ids rest,
       ext_batch_decode host pr ids = Ok (transcription r :: rest).
Proof.
  intros H c. unfold steps_3_7 in H.
  apply bind_Ok_inv in H as (path & s1 & Hsave & H).
  apply bind_Ok_inv in H as ([audio alt] & s2 & Hload & H).
  apply bind_Ok_inv in H as ([[inputs dev] pt] & s3 & Hproc & H).
  apply bind_Ok_inv in H as ([ids it] & s4 & Hgen & H).
  apply bind_Ok_inv in H as ([text dt] & s5 & Hdec & H).
  injection H as <- <-. simpl.
  kept (clock_reads : St -> _) Hsave.
  apply timed_load_Ok in Hload as (-> & Hc2 & _).
  apply timed_process_Ok in Hproc as (-> & Hc3 & _ & Hdev).
  apply timed_generate_Ok in Hgen as (-> & Hc4 & _).
  apply timed_decode_Ok in Hdec as (-> & Hc5 & _ & rest & Hrest).
  rewrite Hc5, Hc4, Hc3, Hc2, Hk. fold c.
  repeat split; try done. by exists ids, rest.
Qed.

Lemma try_Ok_inv m pr up t (s : St) resp s' :
  transcribe_try host m pr up t s = (Ok resp, s') ->
  exists r s1,
    steps_3_7 host m pr up s = (Ok r, s1)
    /\ resp = success_payload host r (fsub host (clock host (clock_reads s1)) t).
Proof.
  unfold transcribe_try. intros H.
  apply bind_Ok_inv in H as (r & s1 & Hsteps & H).
  apply bind_Ok_inv in H as (t1 & s2 & H1 & H).
  apply bind_Ok_inv in H as (? & s3 & _ & H).
  apply bind_Ok_inv in H as (? & s4 & _ & H).
  apply bind_Ok_inv in H as (? & s5 & _ & H).
  apply bind_Ok_inv in H as (? & s6 & _ & H).
  injection H as <- _.
  apply time_time_Ok in H1 as (-> & _). by exists r, s1.
Qed.

(** C7: the body of a successful transcription is the first text of the
    decoded batch with its leading and trailing whitespace stripped,
    followed by a metrics object with exactly six fields in this order:
    the total, audio-load, processing, inference and decode durations,
    each the difference of the two clock readings that enclose the stage
    passed through [round(x, 2)], and the string of the device the model's
    parameters are on.  [c] is the number of clock readings before the
    request. *)
Theorem success_body up (s : St) resp s' :
  transcribe host up s = (Ok resp, s') ->
  is_Some (json_get "transcription" resp) ->
  exists m pr ids text rest dev,
    let c := clock_reads s in
    let between i j := round2 host (fsub host (clock host (j + c)) (clock host (i + c))) in
    whisper_model s = Some m
    /\ processor s = Some pr
    /\ ext_batch_decode host pr ids = Ok (text :: rest)
    /\ ext_parameters_device host m = Ok dev
    /\ resp = JObj [("transcription"%string, JStr (strip text));
                    ("metrics"%string,
                     JObj [("total_time"%string, JNum (between 0 9));
                           ("audio_load_time"%string, JNum (between 1 2));
                           ("processing_time"%string, JNum (between 3 4));
                           ("inference_time"%string, JNum (between 5 6));
                           ("decode_time"%string, JNum (between 7 8));
                           ("device"%string, JStr (str_device host dev))])]%nat
    /\ (forall ch r, strip text = ch :: r -> py_isspace ch = false)
    /\ (forall ch r, strip text = r ++ [ch] -> py_isspace ch = false).
Proof.
  intros Hrun Hkey.
  destruct (ready_handles s) as [[m pr]|] eqn:Hready.
  2:{ unfold transcribe in Hrun. rewrite Hready in Hrun.
      injection Hrun as <- _. by destruct Hkey. }
  rewrite (transcribe_ready up s m pr Hready) in Hrun. unfold try_except in Hrun.
  destruct (transcribe_try host m pr up _ (accepted host s))
    as [[resp0|e] s1] eqn:Htry.
  2:{ destruct (except_returns (clock host (clock_reads s)) e s1)
        as (s2 & Hexc & _).
      rewrite Hexc in Hrun. injection Hrun as <- _. by destruct Hkey. }
  injection Hrun as -> ->.
  apply try_Ok_inv in Htry as (r & s2 & Hsteps & ->).
  apply steps_Ok in Hsteps
    as (Ha & Hp & Hi & Hd & Hc & Hdev & ids & rest & Htext).
  change (clock_reads (accepted host s)) with (S (clock_reads s)) in *.
  exists m, pr, ids, (transcription r), rest, (device r).
  unfold ready_handles in Hready.
  destruct (model_loaded s), (whisper_model s) as [m'|], (processor s) as [pr'|];
    try discriminate Hready.
  injection Hready as -> ->.
  split; [reflexivity |]. split; [reflexivity |].
  split; [exact Htext |]. split; [exact Hdev |].
  split.
  - unfold success_payload. rewrite Ha, Hp, Hi, Hd, Hc.
    repeat (f_equal; try lia).
  - split; [apply strip_no_leading_space | apply strip_no_trailing_space].
Qed.

(** C9: when steps 3-7 of an accepted request raise, the request is
    answered with the total-duration histogram as it was before the
    request; yet the histogram of every stage that completed before the
    failure has its observation: the audio-load one if step 4 completed,
    the processing one if step 5 completed, the inference one if step 6
    completed. *)
Theorem total_duration_unobserved_on_failure up (s : St) m pr e s1 :
  ready_handles s = Some (m, pr) ->
  steps_3_7 host m pr up (accepted host s) = (Raise e, s1) ->
  exists resp s',
    transcribe host up s = (Ok resp, s')
    /\ TRANSCRIPTION_DURATION s' = TRANSCRIPTION_DURATION s
    /\ forall path sa audio t sb,
         save_upload host up (accepted host s) = (Ok path, sa) ->
         timed_load host path sa = (Ok (audio, t), sb) ->
         AUDIO_LOAD_DURATION s' = AUDIO_LOAD_DURATION s ++ [t]
         /\ forall inputs dev t2 sc,
              timed_process host m pr audio sb = (Ok (inputs, dev, t2), sc) ->
              PROCESSING_DURATION s' = PROCESSING_DURATION s ++ [t2]
              /\ forall ids t3 sd,
                   timed_generate host m inputs sc = (Ok (ids, t3), sd) ->
                   INFERENCE_DURATION s' = INFERENCE_DURATION s ++ [t3].
Proof.
  intros Hready Hsteps.
  rewrite (transcribe_ready up s m pr Hready). unfold try_except.
  assert (Htry : transcribe_try host m pr up (clock host (clock_reads s))
                   (accepted host s) = (Raise e, s1)).
  { unfold transcribe_try. by apply bind_Raise. }
  rewrite Htry.
  destruct (transcribe_except host (clock host (clock_reads s)) e s1)
    as [r s'] eqn:Hexc.
  destruct (except_returns (clock host (clock_reads s)) e s1) as (s2 & Hret & _).
  rewrite Hexc in Hret. injection Hret as -> <-.
  exists (error_payload e), s'. split; [reflexivity |]. split.
  - kept (TRANSCRIPTION_DURATION : St -> _) Hexc.
    kept (TRANSCRIPTION_DURATION : St -> _) Hsteps.
    rewrite Hk, Hk0. reflexivity.
  - intros path sa audio t sb Hsave Hload.
    unfold steps_3_7 in Hsteps.
    rewrite (bind_Ok _ _ _ _ _ Hsave), (bind_Ok _ _ _ _ _ Hload) in Hsteps.
    cbv beta iota in Hsteps.
    split.
    + kept (AUDIO_LOAD_DURATION : St -> _) Hexc.
      kept (AUDIO_LOAD_DURATION : St -> _) Hsteps.
      kept (AUDIO_LOAD_DURATION : St -> _) Hsave.
      apply timed_load_Ok in Hload as (_ & _ & Ha).
      rewrite Hk, Hk0, Ha, Hk1. reflexivity.
    + intros inputs dev t2 sc Hproc.
      rewrite (bind_Ok _ _ _ _ _ Hproc) in Hsteps. cbv beta iota in Hsteps.
      split.
      * kept (PROCESSING_DURATION : St -> _) Hexc.
        kept (PROCESSING_DURATION : St -> _) Hsteps.
        kept (PROCESSING_DURATION : St -> _) Hload.
        kept (PROCESSING_DURATION : St -> _) Hsave.
        apply timed_process_Ok in Hproc as (_ & _ & Hp & _).
        rewrite Hk, Hk0, Hp, Hk1, Hk2. reflexivity.
      * intros ids t3 sd Hgen.
        rewrite (bind_Ok _ _ _ _ _ Hgen) in Hsteps. cbv beta iota in Hsteps.
        kept (INFERENCE_DURATION : St -> _) Hexc.
        kept (INFERENCE_DURATION : St -> _) Hsteps.
        kept (INFERENCE_DURATION : St -> _) Hproc.
        kept (INFERENCE_DURATION : St -> _) Hload.
        kept (INFERENCE_DURATION : St -> _) Hsave.
        apply timed_generate_Ok in Hgen as (_ & _ & Hi).
        rewrite Hk, Hk0, Hi, Hk1, Hk2, Hk3. reflexivity.
Qed.

(** ** [load_audio_file] against the specification's wording *)

Ltac run_monad :=
  cbv [mbind mret M_bind M_ret try_except torchaudio_load librosa_load ext
       call logger_warning]; simpl.

(** A name that differs from every entry of an explicit list. *)
Ltac not_in_list :=
  repeat (apply not_elem_of_cons; split; [done |]); apply not_elem_of_nil.

(** The primary path computes [primary_decode_spec], starts with
    [torchaudio.load] and never calls the fallback decoder. *)
Lemma primary_decode_run path (s : St) :
  (primary_decode host path s).1 = primary_decode_spec host (fs s) path
  /\ fs (primary_decode host path s).2 = fs s
  /\ exists tl,
       trace (primary_decode host path s).2
       = trace s ++ "torchaudio.load"%string :: tl
       /\ "librosa.load"%string ∉ tl.
Proof.
  unfold primary_decode, primary_decode_spec. run_monad.
  destruct (ext_torchaudio_load host (fs s) path) as [[w rate]|e0]; simpl.
  2:{ split; [reflexivity |]. split; [reflexivity |].
      exists []. split; [reflexivity | not_in_list]. }
  destruct (1 <? shape0 host w); [destruct (ext_torch_mean host w) |];
    simpl;
    try (destruct (rate =? 16000); [| destruct (ext_Resample host rate 16000 _)];
         simpl; try destruct (ext_squeeze_numpy host _); simpl);
    (split; [reflexivity |]); (split; [reflexivity |]);
    eexists; (split; [by rewrite <- ?app_assoc | not_in_list]).
Qed.

(** The fallback path logs a warning and returns what [librosa.load]
    with [sr=16000, mono=True] does, an exception included. *)
Lemma fallback_decode_run path e (s : St) :
  (fallback_decode host path e s).1 = fallback_decode_spec host (fs s) path
  /\ fs (fallback_decode host path e s).2 = fs s
  /\ trace (fallback_decode host path e s).2
     = trace s ++ ["logger.warning"; "librosa.load"]%string.
Proof.
  unfold fallback_decode, fallback_decode_spec. run_monad.
  destruct (ext_librosa_load host (fs s) path 16000 true) as [[w r]|e1]; simpl;
    by rewrite <- ?app_assoc.
Qed.

(** C5: [load_audio_file] returns what section 4.2 describes: the primary
    decode, averaged to mono when it has more than one channel and
    resampled to 16000 Hz when its rate differs, or, when anything in
    that path raised, the result of the fallback decoder called with
    [sr=16000, mono=True], whose failure is the caller's.  The primary
    decoder is called first, the fallback exactly when the primary path
    raised, and the file system is not touched. *)
Theorem load_audio_file_follows_spec path (s : St) :
  (load_audio_file host path s).1 = load_audio_spec host (fs s) path
  /\ fs (load_audio_file host path s).2 = fs s
  /\ (exists tl,
        trace (load_audio_file host path s).2
        = trace s ++ "torchaudio.load"%string :: tl
        /\ ("librosa.load"%string ∈ tl
            <-> raises (primary_decode_spec host (fs s) path)))
  /\ (forall e,
        raises (primary_decode_spec host (fs s) path) ->
        ext_librosa_load host (fs s) path 16000 true = Raise e ->
        (load_audio_file host path s).1 = Raise e).
Proof.
  destruct (primary_decode_run path s) as (Hres & Hfs & tl & Htl & Hno).
  unfold load_audio_file, load_audio_spec, try_except.
  destruct (primary_decode host path s) as [[w|e0] s1]; simpl in *;
    rewrite <- Hres; simpl.
  - split; [reflexivity |]. split; [exact Hfs |].
    split; [| by intros e []].
    exists tl. split; [exact Htl |]. split; [done | by intros []].
  - destruct (fallback_decode_run path e0 s1) as (Hres2 & Hfs2 & Htl2).
    rewrite Hfs in Hres2.
    split; [exact Hres2 |]. split; [congruence |].
    split.
    + exists (tl ++ ["logger.warning"; "librosa.load"]%string).
      split; [rewrite Htl2, Htl; by rewrite <- app_assoc |].
      split; [done | intros _].
      apply elem_of_app. right. apply list_elem_of_further, list_elem_of_here.
    + intros e _ He. rewrite Hres2. unfold fallback_decode_spec. by rewrite He.
Qed.

(** ** [load_whisper_model] and the start of the process *)

(** C8: [load_whisper_model] always returns a boolean and raises nothing.
    It returns [True] exactly when the processor was fetched, the model
    was fetched and the model was moved; then the gauge is 1 and the
    global model is the result of [.to("cuda")] when CUDA is available and
    of [.to("cpu")] otherwise.  In every other case it returns [False] and
    the gauge is 0. *)
Theorem load_whisper_model_returns (s : St) :
  let name := py "openai/whisper-large-v3-turbo" in
  let dtype := if cuda_is_available host then float16 else float32 in
  let dev := if cuda_is_available host then py "cuda" else py "cpu" in
  exists b s',
    load_whisper_model host s = (Ok b, s')
    /\ MODEL_LOADED s' = (if b then 1 else 0)
    /\ (b = true ->
        exists p m0 m,
          ext_processor_from_pretrained host name = Ok p
          /\ ext_model_from_pretrained host name dtype = Ok m0
          /\ ext_model_to host m0 dev = Ok m
          /\ processor s' = Some p
          /\ whisper_model s' = Some m)
    /\ ((exists p m0 m,
           ext_processor_from_pretrained host name = Ok p
           /\ ext_model_from_pretrained host name dtype = Ok m0
           /\ ext_model_to host m0 dev = Ok m) ->
        b = true).
Proof.
  intros name dtype dev.
  unfold load_whisper_model, device_name, try_except. fold name dtype dev.
  rewrite !bind_run.
  change (logger_info s) with (Ok tt, log_call "logger.info" s).
  cbv beta iota. rewrite !bind_run. unfold ext at 1.
  destruct (ext_processor_from_pretrained host name) as [p|e1] eqn:Hp.
  2:{ exists false. eexists. split; [reflexivity |]. split; [reflexivity |].
      split; [discriminate |]. intros (? & ? & ? & ? & _). discriminate. }
  rewrite !bind_run. unfold assign_processor at 1. rewrite !bind_run.
  unfold ext at 1.
  destruct (ext_model_from_pretrained host name dtype) as [m0|e2] eqn:Hm.
  2:{ exists false. eexists. split; [reflexivity |]. split; [reflexivity |].
      split; [discriminate |]. intros (? & ? & ? & _ & ? & _). discriminate. }
  rewrite !bind_run. unfold assign_whisper_model at 1. rewrite !bind_run.
  unfold ext at 1.
  destruct (ext_model_to host m0 dev) as [m1|e3] eqn:Hto.
  2:{ exists false. eexists. split; [reflexivity |]. split; [reflexivity |].
      split; [discriminate |]. intros (? & ? & ? & _ & ? & ?). congruence. }
  exists true. eexists. split; [reflexivity |]. split; [reflexivity |].
  split; [| done]. intros _. exists p, m0, m1. by repeat split.
Qed.

(** After the start, [model_loaded] is what [load_whisper_model] returned. *)
Lemma startup_model_loaded (s : St) b s1 :
  load_whisper_model host s = (Ok b, s1) ->
  exists s', startup host s = (Ok tt, s') /\ model_loaded s' = b.
Proof.
  intros H. unfold startup. rewrite (bind_Ok _ _ _ _ _ H).
  eexists. split; reflexivity.
Qed.

(** A request leaves the three globals of line 93 alone, so a process
    that is not ready stays so. *)
Lemma transcribe_keeps_not_ready up : keeps (not_ready : St -> bool) (transcribe host up).
Proof.
  intros s. unfold transcribe.
  destruct (ready_handles s) as [[m pr]|] eqn:Hready; [| reflexivity].
  change (((start_time ← prologue host;
            try_except (transcribe_try host m pr up start_time)
                       (transcribe_except host start_time)) s).2)
    with ((try_except (transcribe_try host m pr up (clock host (clock_reads s)))
                      (transcribe_except host (clock host (clock_reads s))))
            (accepted host s)).2.
  assert (Hk : forall t, keeps (not_ready : St -> bool)
                 (try_except (transcribe_try host m pr up t)
                             (transcribe_except host t))) by (intros t; solve_keeps).
  rewrite Hk. reflexivity.
Qed.

(** ** The temporary file *)

Lemma file_extension_nonempty (f : option pystr) : file_extension f <> [].
Proof.
  unfold file_extension, str_or.
  destruct (os_path_splitext _).2; simpl; discriminate.
Qed.

(** When step 3 completes, [temp_file_path] names the file it created. *)
Lemma save_upload_Ok up (s : St) path s' :
  save_upload host up s = (Ok path, s') ->
  temp_file_path s' = Some path
  /\ truthy_path (Some path) = Some path
  /\ is_Some (fs s' !! path)
  /\ unlink_calls s' = unlink_calls s.
Proof.
  unfold save_upload. intros H.
  apply bind_Ok_inv in H as (name & s1 & Hcreate & H).
  apply finally_Ok_inv in H as (s2 & Hbody & Hclose).
  unfold temp_file_close, call in Hclose. injection Hclose as <-.
  apply bind_Ok_inv in Hbody as (content & s3 & Hread & H).
  apply bind_Ok_inv in H as ([] & s4 & Hwrite & H).
  apply bind_Ok_inv in H as ([] & s5 & Hflush & H).
  apply bind_Ok_inv in H as ([] & s6 & Hassign & H).
  injection H as <- <-.
  kept (unlink_calls : St -> _) Hcreate.
  kept (unlink_calls : St -> _) Hread.
  kept (unlink_calls : St -> _) Hwrite.
  kept (unlink_calls : St -> _) Hflush.
  kept (fs : St -> _) Hread.
  kept (fs : St -> _) Hflush.
  unfold assign_temp_file_path in Hassign. injection Hassign as <-.
  unfold NamedTemporaryFile in Hcreate.
  destruct (ext_mkstemp host (fs s)) as [stem|]; [| discriminate Hcreate].
  destruct (fs s !! (stem ++ file_extension (filename up)));
    [discriminate Hcreate |].
  injection Hcreate as <- <-.
  unfold temp_file_write in Hwrite.
  destruct (ext_write_fault host _ content); [discriminate Hwrite |].
  injection Hwrite as <-.
  simpl in *. split; [reflexivity |]. split.
  - pose proof (file_extension_nonempty (filename up)).
    destruct stem, (file_extension (filename up)); simpl; congruence.
  - split; [| congruence].
    rewrite Hk4, Hk3. simpl. rewrite lookup_alter_eq, lookup_insert_eq. by eexists.
Qed.

(** Steps 4-7 leave the file and its name alone. *)
Lemma steps_Ok_path m pr up (s : St) r s1 :
  steps_3_7 host m pr up s = (Ok r, s1) ->
  exists path,
    temp_file_path s1 = Some path
    /\ truthy_path (Some path) = Some path
    /\ is_Some (fs s1 !! path)
    /\ unlink_calls s1 = unlink_calls s.
Proof.
  intros H. unfold steps_3_7 in H.
  apply bind_Ok_inv in H as (path & sa & Hsave & H).
  kept (temp_file_path : St -> _) H.
  kept (fs : St -> _) H.
  kept (unlink_calls : St -> _) H.
  apply save_upload_Ok in Hsave as (Hp & Ht & Hf & Hu).
  exists path. rewrite Hk, Hk0, Hk1. by repeat split.
Qed.

(** The deletion of line 163 is inside the [try]: when every step has
    succeeded and that [os.unlink] raises [e], the request is answered
    with the error payload of [e] and counted as an error. *)
Lemma unlink_failure_after_success m pr up (s : St) r s1 path e :
  ready_handles s = Some (m, pr) ->
  steps_3_7 host m pr up (accepted host s) = (Ok r, s1) ->
  temp_file_path s1 = Some path ->
  ext_unlink_fault host (unlink_calls s) path = Some e ->
  exists s',
    transcribe host up s = (Ok (error_payload e), s')
    /\ TRANSCRIPTION_ERRORS s' = S (TRANSCRIPTION_ERRORS s).
Proof.
  intros Hready Hsteps Hpath Hfault.
  destruct (steps_Ok_path _ _ _ _ _ _ Hsteps) as (path' & Hp & Ht & _ & Hu).
  rewrite Hpath in Hp. injection Hp as <-.
  change (unlink_calls (accepted host s)) with (unlink_calls s) in Hu.
  rewrite (transcribe_ready up s m pr Hready). unfold try_except.
  assert (Htry : exists s2,
             transcribe_try host m pr up (clock host (clock_reads s))
               (accepted host s) = (Raise e, s2)
             /\ TRANSCRIPTION_ERRORS s2 = TRANSCRIPTION_ERRORS s).
  { unfold transcribe_try. rewrite (bind_Ok _ _ _ _ _ Hsteps).
    do 4 (erewrite bind_Ok by reflexivity).
    simpl temp_file_path. rewrite Hpath, Ht.
    rewrite bind_run. unfold os_unlink. simpl unlink_calls.
    rewrite Hu, Hfault. eexists. split; [reflexivity |].
    kept (TRANSCRIPTION_ERRORS : St -> _) Hsteps. simpl. exact Hk. }
  destruct Htry as (s2 & -> & Herr).
  destruct (except_returns (clock host (clock_reads s)) e s2) as (s' & Hexc & Hc).
  exists s'. split; [exact Hexc | congruence].
Qed.

(** Once [temp_file_path] names the file, it is deleted by the time the
    handler returns, provided [os.unlink] itself does not fail: after a
    success by line 163, after a failure in steps 4-7 by line 185. *)
Lemma tempfile_deleted_once_named m pr up (s : St) path sa :
  ready_handles s = Some (m, pr) ->
  save_upload host up (accepted host s) = (Ok path, sa) ->
  (forall n, ext_unlink_fault host n path = None) ->
  fs (transcribe host up s).2 !! path = None.
Proof.
  intros Hready Hsave Hnofault.
  rewrite (transcribe_ready up s m pr Hready). unfold try_except.
  destruct (steps_3_7 host m pr up (accepted host s)) as [[r|e] s1] eqn:Hsteps.
  - destruct (steps_Ok_path _ _ _ _ _ _ Hsteps) as (path' & Hp & Ht & Hf & _).
    assert (path' = path) as ->.
    { unfold steps_3_7 in Hsteps. rewrite (bind_Ok _ _ _ _ _ Hsave) in Hsteps.
      kept (temp_file_path : St -> _) Hsteps.
      apply save_upload_Ok in Hsave as (Hp' & _). congruence. }
    unfold transcribe_try. rewrite (bind_Ok _ _ _ _ _ Hsteps).
    do 4 (erewrite bind_Ok by reflexivity).
    simpl temp_file_path. rewrite Hp, Ht.
    rewrite bind_run. unfold os_unlink. simpl unlink_calls. simpl fs.
    rewrite Hnofault. destruct Hf as [content ->]. simpl.
    apply lookup_delete_eq.
  - assert (Htry : transcribe_try host m pr up (clock host (clock_reads s))
                     (accepted host s) = (Raise e, s1)).
    { unfold transcribe_try. by apply bind_Raise. }
    rewrite Htry.
    unfold steps_3_7 in Hsteps. rewrite (bind_Ok _ _ _ _ _ Hsave) in Hsteps.
    kept (temp_file_path : St -> _) Hsteps.
    kept (fs : St -> _) Hsteps.
    apply save_upload_Ok in Hsave as (Hp & Ht & Hf & _).
    unfold transcribe_except.
    do 4 (erewrite bind_Ok by reflexivity).
    simpl temp_file_path. rewrite Hk, Hp, Ht.
    rewrite bind_run. unfold try_except, os_unlink.
    simpl unlink_calls. simpl fs.
    rewrite Hnofault, Hk0. destruct Hf as [content ->]. simpl.
    apply lookup_delete_eq.
Qed.

(** The path the cleanup misses: the file exists from the call of
    [NamedTemporaryFile] on, its name is assigned to [temp_file_path] four
    lines later.  When the read in between raises, the [except] block
    finds [None], deletes nothing, and the file stays. *)
Lemma tempfile_left_when_save_raises m pr up (s : St) stem e :
  ready_handles s = Some (m, pr) ->
  ext_mkstemp host (fs s) = Ok stem ->
  fs s !! (stem ++ file_extension (filename up)) = None ->
  read up = Raise e ->
  exists s',
    transcribe host up s = (Ok (error_payload e), s')
    /\ fs s' = <[stem ++ file_extension (filename up) := []]> (fs s)
    /\ unlink_calls s' = unlink_calls s.
Proof.
  intros Hready Hstem Hfresh Hread.
  rewrite (transcribe_ready up s m pr Hready). unfold try_except.
  assert (Hsave : exists s1,
             save_upload host up (accepted host s) = (Raise e, s1)
             /\ fs s1 = <[stem ++ file_extension (filename up) := []]> (fs s)
             /\ unlink_calls s1 = unlink_calls s
             /\ temp_file_path s1 = None).
  { unfold save_upload. rewrite bind_run. unfold NamedTemporaryFile.
    change (fs (accepted host s)) with (fs s). rewrite Hstem, Hfresh.
    unfold finally_. rewrite bind_run. unfold ext at 1. rewrite Hread.
    eexists. split; [reflexivity |]. by repeat split. }
  destruct Hsave as (s1 & Hsave & Hfs & Hu & Hnone).
  assert (Htry : transcribe_try host m pr up (clock host (clock_reads s))
                   (accepted host s) = (Raise e, s1)).
  { unfold transcribe_try, steps_3_7. by do 2 apply bind_Raise. }
  rewrite Htry. unfold transcribe_except.
  do 4 (erewrite bind_Ok by reflexivity).
  simpl temp_file_path. rewrite Hnone. simpl.
  eexists. split; [reflexivity |]. simpl. by split.
Qed.

End Properties.

(** * Concrete runs *)

(** C2 at the input that breaks it: the read of the upload raises after
    [NamedTemporaryFile] has created the file.  The handler answers with
    the error, [temp_file_path] was never assigned, [os.unlink] is never
    called, and the file is still there. *)
Theorem tempfile_left_when_read_raises :
  let h := Demo.demo_host false false [] in
  let s := Demo.started h in
  let out := transcribe h Demo.broken_upload s in
  fs s = ∅
  /\ out.1 = Ok (JObj [("error"%string,
                        JStr (py "Transcription failed: client disconnected"))])
  /\ temp_file_path out.2 = None
  /\ unlink_calls out.2 = 0%nat
  /\ fs out.2 !! py "/tmp/tmpk3v9x2ab.mp3" = Some [].
Proof. vm_compute. by repeat split. Qed.

(** C3 at the input that breaks it: every step succeeds and the
    [os.unlink] of line 163 raises.  The same upload on the same state
    succeeds when that call does not raise; with the fault the answer is
    an error carrying the message of the deletion failure, and the error
    counter is incremented. *)
Theorem unlink_failure_masks_success :
  let ok := Demo.demo_host false false [] in
  let faulty := Demo.demo_host false false [0%nat] in
  let s := Demo.started ok in
  (exists body, (transcribe ok Demo.clip s).1 = Ok body
                   /\ json_get "transcription" body = Some (JStr (py "hello world"))
                   /\ TRANSCRIPTION_ERRORS (transcribe ok Demo.clip s).2 = 0%nat)
  /\ (transcribe faulty Demo.clip s).1
     = Ok (JObj [("error"%string,
                  JStr (py "Transcription failed: [Errno 13] Permission denied"))])
  /\ TRANSCRIPTION_ERRORS (transcribe faulty Demo.clip s).2 = 1%nat.
Proof.
  vm_compute. split; [| by split].
  eexists. by repeat split.
Qed.


(** A request whose audio neither decoder accepts: steps 3-7 raise the
    fallback decoder's exception, and C6 applies. *)
Lemma failure_counted_once_and_reported_witness :
  let h := Demo.demo_host false false [] in
  let s := Demo.started h in
  let s1 := (steps_3_7 h (py "cpu") tt Demo.empty_clip (accepted h s)).2 in
  ready_handles s = Some (py "cpu", tt)
  /\ steps_3_7 h (py "cpu") tt Demo.empty_clip (accepted h s)
     = (Raise Demo.librosa_error, s1)
  /\ exists s',
       transcribe h Demo.empty_clip s
       = (Ok (JObj [("error"%string,
                     JStr (py "Transcription failed: "
                           ++ exn_msg Demo.librosa_error))]), s')
       /\ TRANSCRIPTION_ERRORS s' = S (TRANSCRIPTION_ERRORS s).
Proof.
  intros h s s1.
  assert (H1 : ready_handles s = Some (py "cpu", tt)) by reflexivity.
  assert (H2 : steps_3_7 h (py "cpu") tt Demo.empty_clip (accepted h s)
               = (Raise Demo.librosa_error, s1)) by (vm_compute; reflexivity).
  split; [exact H1 |]. split; [exact H2 |].
  exact (failure_counted_once_and_reported h Demo.empty_clip s (py "cpu") tt
           Demo.librosa_error s1 H1 H2).
Defined.

(** A request that succeeds on a freshly started process, and C7 on it. *)
Lemma success_body_witness :
  let h := Demo.demo_host false false [] in
  let s := Demo.started h in
  let out := transcribe h Demo.clip s in
  let body :=
    JObj [("transcription"%string, JStr (py "hello world"));
          ("metrics"%string,
           JObj [("total_time"%string, JNum 225);
                 ("audio_load_time"%string, JNum 25);
                 ("processing_time"%string, JNum 25);
                 ("inference_time"%string, JNum 25);
                 ("decode_time"%string, JNum 25);
                 ("device"%string, JStr (py "cpu"))])] in
  out = (Ok body, out.2)
  /\ is_Some (json_get "transcription" body)
  /\ exists text dev,
       ext_batch_decode h tt tt = Ok [text]
       /\ ext_parameters_device h (py "cpu") = Ok dev
       /\ body = JObj [("transcription"%string, JStr (strip text));
                       ("metrics"%string,
                        JObj [("total_time"%string, JNum (clock h 9 - clock h 0));
                              ("audio_load_time"%string, JNum (clock h 2 - clock h 1));
                              ("processing_time"%string, JNum (clock h 4 - clock h 3));
                              ("inference_time"%string, JNum (clock h 6 - clock h 5));
                              ("decode_time"%string, JNum (clock h 8 - clock h 7));
                              ("device"%string, JStr dev)])].
Proof.
  intros h s out body.
  assert (H1 : out = (Ok body, out.2)) by (vm_compute; reflexivity).
  assert (H2 : is_Some (json_get "transcription" body)) by (by eexists).
  split; [exact H1 |]. split; [exact H2 |].
  destruct (success_body h Demo.clip s body out.2 H1 H2)
    as (m & pr & ids & text & rest & dev & Hm & Hpr & Htext & Hdev & Hbody & _).
  injection Hm as <-. destruct pr, ids.
  vm_compute in Htext. injection Htext as <- <-.
  exists (py " hello world "), dev.
  split; [reflexivity |]. split; [exact Hdev |]. exact Hbody.
Defined.

(** A request whose inference runs out of memory: steps 4 and 5 have
    completed, step 6 raises, and C9 applies. *)
Lemma total_duration_unobserved_on_failure_witness :
  let h := Demo.demo_host true true [] in
  let s := Demo.started h in
  let s1 := (steps_3_7 h (py "cuda") tt Demo.clip (accepted h s)).2 in
  ready_handles s = Some (py "cuda", tt)
  /\ steps_3_7 h (py "cuda") tt Demo.clip (accepted h s) = (Raise Demo.cuda_oom, s1)
  /\ exists resp s',
       transcribe h Demo.clip s = (Ok resp, s')
       /\ TRANSCRIPTION_DURATION s' = TRANSCRIPTION_DURATION s
       /\ AUDIO_LOAD_DURATION s' = AUDIO_LOAD_DURATION s ++ [25]
       /\ PROCESSING_DURATION s' = PROCESSING_DURATION s ++ [25].
Proof.
  intros h s s1.
  assert (H1 : ready_handles s = Some (py "cuda", tt)) by reflexivity.
  assert (H2 : steps_3_7 h (py "cuda") tt Demo.clip (accepted h s)
               = (Raise Demo.cuda_oom, s1)) by (vm_compute; reflexivity).
  split; [exact H1 |]. split; [exact H2 |].
  destruct (total_duration_unobserved_on_failure h Demo.clip s (py "cuda") tt
              Demo.cuda_oom s1 H1 H2) as (resp & s' & Hrun & Htot & Hstages).
  exists resp, s'. split; [exact Hrun |]. split; [exact Htot |].
  set (sa := (save_upload h Demo.clip (accepted h s)).2).
  assert (Hsave : save_upload h Demo.clip (accepted h s)
                  = (Ok (py "/tmp/tmpk3v9x2ab.mp3"), sa))
    by (vm_compute; reflexivity).
  set (sb := (timed_load h (py "/tmp/tmpk3v9x2ab.mp3") sa).2).
  assert (Hload : timed_load h (py "/tmp/tmpk3v9x2ab.mp3") sa = (Ok (16000, 25), sb))
    by (vm_compute; reflexivity).
  set (sc := (timed_process h (py "cuda") tt 16000 sb).2).
  assert (Hproc : timed_process h (py "cuda") tt 16000 sb
                  = (Ok (tt, py "cuda", 25), sc))
    by (vm_compute; reflexivity).
  destruct (Hstages _ _ _ _ _ Hsave Hload) as (Ha & Hrest).
  destruct (Hrest _ _ _ _ Hproc) as (Hp & _).
  split; [exact Ha | exact Hp].
Defined.

(** * Further properties *)

(** ** The suffix of the temporary file *)

Lemma rfind_from_found (c : N) (p : pystr) (i found : Z) :
  found < i ->
  let r := rfind_from c p i found in
  r = found \/ (i <= r /\ p !! Z.to_nat (r - i) = Some c).
Proof.
  revert i found. induction p as [|x t IH]; simpl; intros i found Hlt.
  - by left.
  - destruct (N.eqb_spec x c) as [->|Hne].
    + destruct (IH (i + 1) i ltac:(lia)) as [Hr|[Hle Hr]].
      * right. rewrite Hr. split; [lia |]. by replace (i - i) with 0 by lia.
      * right. split; [lia |].
        replace (Z.to_nat (rfind_from c t (i + 1) i - i))
          with (S (Z.to_nat (rfind_from c t (i + 1) i - (i + 1)))) by lia.
        exact Hr.
    + destruct (IH (i + 1) found ltac:(lia)) as [Hr|[Hle Hr]].
      * by left.
      * right. split; [lia |].
        replace (Z.to_nat (rfind_from c t (i + 1) found - i))
          with (S (Z.to_nat (rfind_from c t (i + 1) found - (i + 1)))) by lia.
        exact Hr.
Qed.

Lemma rfind_from_last (c : N) (p : pystr) (i found : Z) (k : nat) :
  p !! k = Some c -> i + Z.of_nat k <= rfind_from c p i found.
Proof.
  revert i found k. induction p as [|x t IH]; simpl; intros i found k Hk.
  - discriminate Hk.
  - destruct k as [|k]; simpl in Hk.
    + injection Hk as ->. rewrite N.eqb_refl.
      destruct (rfind_from_found c t (i + 1) i ltac:(lia)) as [->|[Hle _]]; lia.
    + specialize (IH (i + 1) (if (x =? c)%N then i else found) k Hk). lia.
Qed.

(** The extension [splitext] returns is empty, or a dot followed by
    characters none of which is a separator. *)
Lemma splitext_extension_shape (p : pystr) :
  (os_path_splitext p).2 = []
  \/ exists rest, (os_path_splitext p).2 = 46%N :: rest /\ 47%N ∉ rest.
Proof.
  unfold os_path_splitext, _splitext.
  destruct (_ && _) eqn:Hcond; [| by left]. right. simpl.
  apply andb_true_iff in Hcond as [Hlt _]. apply Z.ltb_lt in Hlt.
  pose proof (rfind_from_lower 47%N p 0 (-1) ltac:(lia) ltac:(lia)) as Hsep.
  fold (rfind 47%N p) in Hsep.
  destruct (rfind_from_found 46%N p 0 (-1) ltac:(lia)) as [Hr|[Hle Hdot]];
    fold (rfind 46%N p) in *; [lia |].
  rewrite Z.sub_0_r in Hdot.
  exists (drop (S (Z.to_nat (rfind 46%N p))) p). split.
  - by apply drop_S.
  - intros Hin. apply list_elem_of_lookup in Hin as [k Hk].
    rewrite lookup_drop in Hk.
    pose proof (rfind_from_last 47%N p 0 (-1) _ Hk) as Hlast.
    fold (rfind 47%N p) in Hlast. lia.
Qed.

(** X1: whatever the uploaded filename is, the suffix handed to
    [NamedTemporaryFile] is a dot followed by characters none of which is
    the path separator ['/']: the upload's name cannot steer the temporary
    file into another directory. *)
Theorem suffix_is_dot_without_separator (filename : option pystr) :
  exists rest, file_extension filename = 46%N :: rest /\ 47%N ∉ rest.
Proof.
  unfold file_extension.
  destruct (splitext_extension_shape (opt_str_or filename (py "audio.wav")))
    as [->|(rest & -> & Hrest)].
  - exists (py "wav"). split; [reflexivity |].
    repeat (apply not_elem_of_cons; split; [done |]). apply not_elem_of_nil.
  - exists rest. by split.
Qed.

(** ** [strip] *)

Lemma lstrip_fixed (s : pystr) :
  (forall c r, s = c :: r -> py_isspace c = false) -> lstrip s = s.
Proof.
  destruct s as [|c r]; [reflexivity |]. intros H. simpl.
  by rewrite (H c r eq_refl).
Qed.

Lemma rstrip_fixed (s : pystr) :
  (forall c r, s = r ++ [c] -> py_isspace c = false) -> rstrip s = s.
Proof.
  intros H. unfold rstrip. rewrite lstrip_fixed.
  - apply reverse_involutive.
  - intros c r Hrev. apply (H c (reverse r)).
    apply (f_equal reverse) in Hrev. rewrite reverse_involutive in Hrev.
    rewrite Hrev, reverse_cons. reflexivity.
Qed.

(** X2: [strip] takes a run of whitespace off each end of the text and
    nothing else, and stripping a stripped text changes nothing. *)
Theorem strip_trims_only_whitespace (s : pystr) :
  (exists l r, s = l ++ strip s ++ r
               /\ Forall (fun c => py_isspace c = true) l
               /\ Forall (fun c => py_isspace c = true) r)
  /\ strip (strip s) = strip s.
Proof.
  split.
  - unfold strip. destruct (lstrip_split s) as (l & Hl & Hall).
    destruct (rstrip_split (lstrip s)) as (r & Hr & Harr).
    exists l, r. split; [| by split]. by rewrite <- Hr.
  - unfold strip at 1.
    rewrite lstrip_fixed by apply strip_no_leading_space.
    apply rstrip_fixed, strip_no_trailing_space.
Qed.

Section MoreProperties.

Context {Time Tensor Waveform Model Processor Inputs Ids Device : Type}.
Variable host : @Host Time Tensor Waveform Model Processor Inputs Ids Device.

Local Abbreviation St := (@State Time Model Processor).
Local Abbreviation Prog := (@M Time Model Processor).

(** [f] is the same before and after the run [H : m s = (r, s')]. *)
Ltac unchanged f H :=
  let Hk := fresh "Hk" in
  lazymatch type of H with
  | ?m ?s = _ =>
      assert (Hk : keeps f m)
        by (repeat match goal with
                   | Hx : ?T |- _ =>
                       lazymatch type of T with Prop => clear Hx end
                   end;
            solve_keeps);
      apply (fun K => keeps_run f m _ _ _ K H) in Hk
  end.

(** ** What a request leaves alone *)

(** What the lines after the readiness check keep, [transcribe] keeps. *)
Lemma transcribe_keeps {X} (f : St -> X) up :
  (forall m pr,
     keeps f (start_time ← prologue host;
              try_except (transcribe_try host m pr up start_time)
                         (transcribe_except host start_time))) ->
  keeps f (transcribe host up).
Proof.
  intros H s. unfold transcribe.
  destruct (ready_handles s) as [[m pr]|]; [apply H | reflexivity].
Qed.

(** X3: a request never changes the model handle: the load flag, the
    model, the processor and the model-loaded gauge are after the request
    what they were before it, whatever the request's outcome. *)
Theorem transcribe_keeps_model_handle up (s : St) :
  model_loaded (transcribe host up s).2 = model_loaded s
  /\ whisper_model (transcribe host up s).2 = whisper_model s
  /\ processor (transcribe host up s).2 = processor s
  /\ MODEL_LOADED (transcribe host up s).2 = MODEL_LOADED s.
Proof.
  repeat split.
  - apply (transcribe_keeps model_loaded). intros; solve_keeps.
  - apply (transcribe_keeps whisper_model). intros; solve_keeps.
  - apply (transcribe_keeps processor). intros; solve_keeps.
  - apply (transcribe_keeps MODEL_LOADED). intros; solve_keeps.
Qed.

(** X4: for a request past the readiness check the error counter moves
    exactly when the answer is an error: an answer with ["error"] comes
    with the counter one higher, an answer with ["transcription"] with the
    counter unchanged, and there is no third kind of answer. *)
Theorem error_counter_matches_answer up (s : St) resp s' :
  not_ready s = false ->
  transcribe host up s = (Ok resp, s') ->
  (is_error_body resp = true
   /\ json_get "transcription" resp = None
   /\ TRANSCRIPTION_ERRORS s' = S (TRANSCRIPTION_ERRORS s))
  \/ (is_error_body resp = false
      /\ is_Some (json_get "transcription" resp)
      /\ TRANSCRIPTION_ERRORS s' = TRANSCRIPTION_ERRORS s).
Proof.
  intros Hready Hrun.
  apply ready_handles_Some in Hready as (m & pr & Hready).
  rewrite (transcribe_ready host up s m pr Hready) in Hrun.
  unfold try_except in Hrun.
  destruct (transcribe_try host m pr up _ (accepted host s))
    as [[resp0|e] s1] eqn:Htry.
  - injection Hrun as -> ->. right.
    pose proof (try_keeps_errors host m pr up (clock host (clock_reads s))
                  (accepted host s)) as Hk.
    rewrite Htry in Hk. simpl in Hk.
    apply try_returns_success in Htry as (r & total & ->).
    split; [reflexivity |]. split; [by eexists | exact Hk].
  - destruct (except_returns host (clock host (clock_reads s)) e s1)
      as (s2 & Hexc & Hcount).
    rewrite Hexc in Hrun. injection Hrun as <- <-. left.
    split; [reflexivity |]. split; [reflexivity |].
    rewrite Hcount. f_equal.
    pose proof (try_keeps_errors host m pr up (clock host (clock_reads s))
                  (accepted host s)) as Hk.
    rewrite Htry in Hk. exact Hk.
Qed.

(** ** What a successful request records *)

(** Steps 3-7, when none raises, put one observation in each stage
    histogram and none in the total one. *)
Lemma steps_Ok_histograms m pr up (s : St) r s1 :
  steps_3_7 host m pr up s = (Ok r, s1) ->
  AUDIO_LOAD_DURATION s1 = AUDIO_LOAD_DURATION s ++ [audio_load_time r]
  /\ PROCESSING_DURATION s1 = PROCESSING_DURATION s ++ [process_time r]
  /\ INFERENCE_DURATION s1 = INFERENCE_DURATION s ++ [inference_time r]
  /\ DECODE_DURATION s1 = DECODE_DURATION s ++ [decode_time r]
  /\ TRANSCRIPTION_DURATION s1 = TRANSCRIPTION_DURATION s.
Proof.
  intros H.
  assert (Htot : TRANSCRIPTION_DURATION s1 = TRANSCRIPTION_DURATION s).
  { pose proof (steps_keep_total host m pr up s) as Hk. by rewrite H in Hk. }
  unfold steps_3_7 in H.
  apply bind_Ok_inv in H as (path & s2 & Hsave & H).
  apply bind_Ok_inv in H as ([audio alt] & s3 & Hload & H).
  apply bind_Ok_inv in H as ([[inputs dev] pt] & s4 & Hproc & H).
  apply bind_Ok_inv in H as ([ids it] & s5 & Hgen & H).
  apply bind_Ok_inv in H as ([text dt] & s6 & Hdec & H).
  injection H as <- <-. simpl.
  split; [| split; [| split; [| split; [| exact Htot]]]].
  - unchanged (AUDIO_LOAD_DURATION : St -> _) Hsave.
    unchanged (AUDIO_LOAD_DURATION : St -> _) Hproc.
    unchanged (AUDIO_LOAD_DURATION : St -> _) Hgen.
    unchanged (AUDIO_LOAD_DURATION : St -> _) Hdec.
    apply timed_load_Ok in Hload as (_ & _ & Ha). congruence.
  - unchanged (PROCESSING_DURATION : St -> _) Hsave.
    unchanged (PROCESSING_DURATION : St -> _) Hload.
    unchanged (PROCESSING_DURATION : St -> _) Hgen.
    unchanged (PROCESSING_DURATION : St -> _) Hdec.
    apply timed_process_Ok in Hproc as (_ & _ & Hp & _). congruence.
  - unchanged (INFERENCE_DURATION : St -> _) Hsave.
    unchanged (INFERENCE_DURATION : St -> _) Hload.
    unchanged (INFERENCE_DURATION : St -> _) Hproc.
    unchanged (INFERENCE_DURATION : St -> _) Hdec.
    apply timed_generate_Ok in Hgen as (_ & _ & Hi). congruence.
  - unchanged (DECODE_DURATION : St -> _) Hsave.
    unchanged (DECODE_DURATION : St -> _) Hload.
    unchanged (DECODE_DURATION : St -> _) Hproc.
    unchanged (DECODE_DURATION : St -> _) Hgen.
    apply timed_decode_Ok in Hdec as (_ & _ & Hd & _). congruence.
Qed.

(** The lines after step 7, when the [try] block returns: the total is
    observed once, and the deletion of line 163 did not raise. *)
Lemma try_Ok_tail m pr up t (s : St) resp s' :
  transcribe_try host m pr up t s = (Ok resp, s') ->
  exists r s1 s2,
    steps_3_7 host m pr up s = (Ok r, s1)
    /\ resp = success_payload host r (fsub host (clock host (clock_reads s1)) t)
    /\ TRANSCRIPTION_DURATION s2
       = TRANSCRIPTION_DURATION s1 ++ [fsub host (clock host (clock_reads s1)) t]
    /\ AUDIO_LOAD_DURATION s2 = AUDIO_LOAD_DURATION s1
    /\ PROCESSING_DURATION s2 = PROCESSING_DURATION s1
    /\ INFERENCE_DURATION s2 = INFERENCE_DURATION s1
    /\ DECODE_DURATION s2 = DECODE_DURATION s1
    /\ fs s2 = fs s1
    /\ temp_file_path s2 = temp_file_path s1
    /\ (match truthy_path (temp_file_path s2) with
        | Some p => os_unlink host p
        | None => mret tt
        end) s2 = (Ok tt, s').
Proof.
  unfold transcribe_try. intros H.
  apply bind_Ok_inv in H as (r & s1 & Hsteps & H).
  apply bind_Ok_inv in H as (t1 & s2 & H1 & H).
  apply bind_Ok_inv in H as ([] & s3 & Hobs & H).
  apply bind_Ok_inv in H as ([] & s4 & Hlog & H).
  apply bind_Ok_inv in H as (tfp & s5 & Hget & H).
  apply bind_Ok_inv in H as ([] & s6 & Hun & H).
  injection H as <- <-.
  unfold get in Hget. injection Hget as <- <-.
  pose proof (time_time_Ok host _ _ _ H1) as (-> & _).
  unfold time_time in H1. injection H1 as <-.
  unfold TRANSCRIPTION_DURATION_observe in Hobs. injection Hobs as <-.
  unfold logger_info, call in Hlog. injection Hlog as <-.
  lazymatch type of Hun with
  | _ ?st = _ => exists r, s1, st
  end.
  split; [exact Hsteps |]. split; [reflexivity |].
  repeat (split; [reflexivity |]). exact Hun.
Qed.

Lemma unlink_keeps_histograms p :
  keeps (fun s : St => (TRANSCRIPTION_DURATION s, AUDIO_LOAD_DURATION s,
                        PROCESSING_DURATION s, INFERENCE_DURATION s,
                        DECODE_DURATION s))
    (match truthy_path p with
     | Some q => os_unlink host q
     | None => mret tt
     end).
Proof. solve_keeps. Qed.

(** A body with ["transcription"] comes from a [try] block that returned. *)
Lemma success_from_try up (s : St) resp s' :
  transcribe host up s = (Ok resp, s') ->
  is_Some (json_get "transcription" resp) ->
  exists m pr,
    ready_handles s = Some (m, pr)
    /\ transcribe_try host m pr up (clock host (clock_reads s)) (accepted host s)
       = (Ok resp, s').
Proof.
  intros Hrun Hkey.
  destruct (ready_handles s) as [[m pr]|] eqn:Hready.
  2:{ unfold transcribe in Hrun. rewrite Hready in Hrun.
      injection Hrun as <- _. by destruct Hkey. }
  rewrite (transcribe_ready host up s m pr Hready) in Hrun.
  unfold try_except in Hrun.
  destruct (transcribe_try host m pr up _ (accepted host s))
    as [[resp0|e] s1] eqn:Htry.
  - injection Hrun as -> ->. by exists m, pr.
  - destruct (except_returns host (clock host (clock_reads s)) e s1)
      as (s2 & Hexc & _).
    rewrite Hexc in Hrun. injection Hrun as <- _. by destruct Hkey.
Qed.

(** X5: a successful request adds exactly one observation to each of the
    five histograms, and the five durations in the body's metrics are
    these observations passed through [round(x, 2)]: what [/metrics]
    accumulates and what the caller is told are the same measurements. *)
Theorem success_observes_what_it_reports up (s : St) resp s' :
  transcribe host up s = (Ok resp, s') ->
  is_Some (json_get "transcription" resp) ->
  exists total audio processing inference decode dev,
    TRANSCRIPTION_DURATION s' = TRANSCRIPTION_DURATION s ++ [total]
    /\ AUDIO_LOAD_DURATION s' = AUDIO_LOAD_DURATION s ++ [audio]
    /\ PROCESSING_DURATION s' = PROCESSING_DURATION s ++ [processing]
    /\ INFERENCE_DURATION s' = INFERENCE_DURATION s ++ [inference]
    /\ DECODE_DURATION s' = DECODE_DURATION s ++ [decode]
    /\ json_get "metrics" resp
       = Some (JObj [("total_time"%string, JNum (round2 host total));
                     ("audio_load_time"%string, JNum (round2 host audio));
                     ("processing_time"%string, JNum (round2 host processing));
                     ("inference_time"%string, JNum (round2 host inference));
                     ("decode_time"%string, JNum (round2 host decode));
                     ("device"%string, JStr dev)]).
Proof.
  intros Hrun Hkey.
  destruct (success_from_try up s resp s' Hrun Hkey) as (m & pr & _ & Htry).
  apply try_Ok_tail in Htry
    as (r & s1 & s2 & Hsteps & -> & Ht & Ha & Hp & Hi & Hd & _ & _ & Hun).
  apply steps_Ok_histograms in Hsteps as (Ha1 & Hp1 & Hi1 & Hd1 & Ht1).
  pose proof (unlink_keeps_histograms (temp_file_path s2) s2) as Hk.
  rewrite Hun in Hk. simpl in Hk. injection Hk as Hk1 Hk2 Hk3 Hk4 Hk5.
  change (AUDIO_LOAD_DURATION (accepted host s)) with (AUDIO_LOAD_DURATION s) in *.
  change (PROCESSING_DURATION (accepted host s)) with (PROCESSING_DURATION s) in *.
  change (INFERENCE_DURATION (accepted host s)) with (INFERENCE_DURATION s) in *.
  change (DECODE_DURATION (accepted host s)) with (DECODE_DURATION s) in *.
  change (TRANSCRIPTION_DURATION (accepted host s))
    with (TRANSCRIPTION_DURATION s) in *.
  eexists _, (audio_load_time r), (process_time r), (inference_time r),
    (decode_time r), _.
  split; [rewrite Hk1, Ht, Ht1; reflexivity |].
  split; [congruence |]. split; [congruence |].
  split; [congruence |]. split; [congruence |]. reflexivity.
Qed.

(** ** The temporary file and the other files *)

Lemma save_upload_Ok_files up (s : St) path s' :
  save_upload host up s = (Ok path, s') ->
  exists stem content,
    ext_mkstemp host (fs s) = Ok stem
    /\ path = stem ++ file_extension (filename up)
    /\ read up = Ok content
    /\ fs s !! path = None
    /\ fs s' = <[path := content]> (fs s)
    /\ temp_file_path s' = Some path.
Proof.
  unfold save_upload. intros H.
  apply bind_Ok_inv in H as (name & s1 & Hcreate & H).
  apply finally_Ok_inv in H as (s2 & Hbody & Hclose).
  unfold temp_file_close, call in Hclose. injection Hclose as <-.
  apply bind_Ok_inv in Hbody as (content & s3 & Hread & H).
  apply bind_Ok_inv in H as ([] & s4 & Hwrite & H).
  apply bind_Ok_inv in H as ([] & s5 & Hflush & H).
  apply bind_Ok_inv in H as ([] & s6 & Hassign & H).
  injection H as <- <-.
  unchanged (fs : St -> _) Hread.
  unchanged (fs : St -> _) Hflush.
  apply ext_Ok in Hread.
  unfold assign_temp_file_path in Hassign. injection Hassign as <-.
  unfold NamedTemporaryFile in Hcreate.
  destruct (ext_mkstemp host (fs s)) as [stem|]; [| discriminate Hcreate].
  destruct (fs s !! (stem ++ file_extension (filename up))) eqn:Hfresh;
    [discriminate Hcreate |].
  injection Hcreate as <- <-.
  unfold temp_file_write in Hwrite.
  destruct (ext_write_fault host _ content); [discriminate Hwrite |].
  injection Hwrite as <-.
  simpl in *. exists stem, content.
  split; [reflexivity |]. split; [reflexivity |]. split; [exact Hread |].
  split; [exact Hfresh |]. split; [| reflexivity].
  rewrite Hk0, Hk. simpl. by rewrite alter_insert_eq.
Qed.

(** X6: when step 3 completes, the temporary file is a file that did not
    exist before, its name ends with the suffix computed from the
    upload's filename, it holds exactly the bytes read from the upload,
    and [temp_file_path] names it. *)
Theorem save_upload_stores_the_upload up (s : St) path s' :
  save_upload host up s = (Ok path, s') ->
  exists stem content,
    path = stem ++ file_extension (filename up)
    /\ read up = Ok content
    /\ fs s !! path = None
    /\ fs s' !! path = Some content
    /\ (forall q, q <> path -> fs s' !! q = fs s !! q)
    /\ temp_file_path s' = Some path.
Proof.
  intros H.
  apply save_upload_Ok_files in H
    as (stem & content & _ & Hname & Hread & Hfresh & Hfs & Htfp).
  exists stem, content. rewrite Hfs.
  split; [exact Hname |]. split; [exact Hread |]. split; [exact Hfresh |].
  split; [apply lookup_insert_eq |].
  split; [| exact Htfp]. intros q Hq. by apply lookup_insert_ne.
Qed.

(** X7: a request answered with a transcription leaves the file system
    exactly as it found it: the temporary file it created is gone and no
    other file was created, changed or removed. *)
Theorem success_restores_the_file_system up (s : St) resp s' :
  transcribe host up s = (Ok resp, s') ->
  is_Some (json_get "transcription" resp) ->
  fs s' = fs s.
Proof.
  intros Hrun Hkey.
  destruct (success_from_try up s resp s' Hrun Hkey) as (m & pr & _ & Htry).
  apply try_Ok_tail in Htry
    as (r & s1 & s2 & Hsteps & _ & _ & _ & _ & _ & _ & Hfs2 & Htfp2 & Hun).
  unfold steps_3_7 in Hsteps.
  apply bind_Ok_inv in Hsteps as (path & sa & Hsave & Hrest).
  unchanged (fs : St -> _) Hrest.
  unchanged (temp_file_path : St -> _) Hrest.
  pose proof (save_upload_Ok host up _ _ _ Hsave) as (_ & Htruthy & _ & _).
  apply save_upload_Ok_files in Hsave
    as (stem & content & _ & _ & _ & Hfresh & Hfs & Htfp).
  change (fs (accepted host s)) with (fs s) in *.
  rewrite Htfp2, Hk0, Htfp, Htruthy in Hun.
  unfold os_unlink in Hun.
  destruct (ext_unlink_fault host (unlink_calls s2) path); [discriminate Hun |].
  rewrite Hfs2, Hk, Hfs, lookup_insert_eq in Hun.
  injection Hun as <-. simpl.
  by apply delete_insert_id.
Qed.

(** *** [preserves] through the combinators *)

Lemma preserves_weaken {A} (I : St -> Prop) (Q R : A -> Prop) (m : Prog A) :
  preserves I Q m -> (forall a, Q a -> R a) -> preserves I R m.
Proof. intros Hm HQR s Hs. destruct (Hm s Hs) as [HI HQ]. split; eauto. Qed.

Lemma preserves_ret {A} (I : St -> Prop) (Q : A -> Prop) (a : A) :
  Q a -> preserves I Q (mret a : Prog A).
Proof. intros Ha s Hs. split; [exact Hs |]. intros a' [= <-]. exact Ha. Qed.

Lemma preserves_bind {A B} (I : St -> Prop) (Q : A -> Prop) (R : B -> Prop)
    (m : Prog A) (k : A -> Prog B) :
  preserves I Q m -> (forall a, Q a -> preserves I R (k a)) ->
  preserves I R (m ≫= k).
Proof.
  intros Hm Hk s Hs. rewrite bind_run. destruct (Hm s Hs) as [HI HQ].
  destruct (m s) as [[a|e] s1]; simpl in *.
  - exact (Hk a (HQ a eq_refl) s1 HI).
  - split; [exact HI | discriminate].
Qed.

Lemma preserves_try_except {A} (I : St -> Prop) (Q : A -> Prop)
    (m : Prog A) (h : Exn -> Prog A) :
  preserves I Q m -> (forall e, preserves I Q (h e)) ->
  preserves I Q (try_except m h).
Proof.
  intros Hm Hh s Hs. unfold try_except. destruct (Hm s Hs) as [HI HQ].
  destruct (m s) as [[a|e] s1]; simpl in *.
  - split; [exact HI | exact HQ].
  - exact (Hh e s1 HI).
Qed.

Lemma preserves_finally {A} (I : St -> Prop) (Q : A -> Prop)
    (m : Prog A) (fin : Prog unit) :
  preserves I Q m -> preserves I (fun _ => True) fin ->
  preserves I Q (finally_ m fin).
Proof.
  intros Hm Hf s Hs. unfold finally_. destruct (Hm s Hs) as [HI HQ].
  destruct (m s) as [[a|e] s1]; simpl in *;
    destruct (Hf s1 HI) as [HI2 _];
    destruct (fin s1) as [[[]|e'] s2]; simpl in *;
    (split; [exact HI2 |]); try discriminate.
  exact HQ.
Qed.

(** A block that touches neither the files nor [temp_file_path] keeps
    every file safe. *)
Lemma preserves_of_keeps {A} q c (m : Prog A) :
  keeps (fun s : St => (fs s, temp_file_path s)) m ->
  preserves (file_safe q c) (fun _ => True) m.
Proof.
  intros Hk s [Hq Hp]. specialize (Hk s). injection Hk as Hfs Htfp.
  split; [| done]. unfold file_safe. by rewrite Hfs, Htfp.
Qed.

(** *** The blocks that touch files *)

Lemma NamedTemporaryFile_safe q c suffix :
  preserves (file_safe q c) (fun name => name <> q)
    (NamedTemporaryFile host suffix).
Proof.
  intros s [Hq Hp]. unfold NamedTemporaryFile.
  destruct (ext_mkstemp host (fs s)) as [stem|e]; simpl.
  2:{ split; [by split | discriminate]. }
  destruct (fs s !! (stem ++ suffix)) eqn:Hfresh; simpl.
  - split; [by split | discriminate].
  - assert (Hne : stem ++ suffix <> q).
    { intros Heq. rewrite Heq in Hfresh.
      discriminate (eq_trans (eq_sym Hq) Hfresh). }
    split; [| by intros a [= <-]].
    split; [| exact Hp]. simpl. by rewrite lookup_insert_ne.
Qed.

Lemma temp_file_write_safe q c name content :
  name <> q ->
  preserves (file_safe q c) (fun _ => True) (temp_file_write host name content).
Proof.
  intros Hne s [Hq Hp]. unfold temp_file_write.
  destruct (ext_write_fault host name content); simpl;
    (split; [| done]); split; simpl; try done.
  by rewrite lookup_alter_ne.
Qed.

Lemma assign_temp_file_path_safe q c name :
  name <> q ->
  preserves (file_safe q c) (fun _ => True)
    (assign_temp_file_path (Some name) : Prog unit).
Proof.
  intros Hne s [Hq Hp]. split; [| done]. split; simpl; [exact Hq |].
  by intros [= ?].
Qed.

Lemma os_unlink_safe q c p :
  p <> q -> preserves (file_safe q c) (fun _ => True) (os_unlink host p).
Proof.
  intros Hne s [Hq Hp]. unfold os_unlink.
  destruct (ext_unlink_fault host (unlink_calls s) p); simpl.
  - split; [by split | done].
  - destruct (fs s !! p); simpl; (split; [| done]); split; simpl; try done.
    by rewrite lookup_delete_ne.
Qed.

Lemma truthy_path_Some p x : truthy_path p = Some x -> p = Some x.
Proof.
  destruct p as [y|]; simpl; [| discriminate].
  destruct (truthy_str y); [congruence | discriminate].
Qed.

Lemma save_upload_safe q c up :
  preserves (file_safe q c) (fun _ => True) (save_upload host up).
Proof.
  unfold save_upload.
  apply (preserves_bind _ (fun name => name <> q));
    [apply NamedTemporaryFile_safe |].
  intros name Hne. apply preserves_finally.
  2:{ apply preserves_of_keeps. solve_keeps. }
  apply (preserves_bind _ (fun _ => True)).
  { apply preserves_of_keeps. solve_keeps. }
  intros content _. apply (preserves_bind _ (fun _ => True)).
  { by apply temp_file_write_safe. }
  intros _ _. apply (preserves_bind _ (fun _ => True)).
  { apply preserves_of_keeps. solve_keeps. }
  intros _ _. apply (preserves_bind _ (fun _ => True)).
  { by apply assign_temp_file_path_safe. }
  intros _ _. by apply preserves_ret.
Qed.

Lemma steps_safe q c m pr up :
  preserves (file_safe q c) (fun _ => True) (steps_3_7 host m pr up).
Proof.
  unfold steps_3_7.
  apply (preserves_bind _ (fun _ => True)); [apply save_upload_safe |].
  intros path _. apply preserves_of_keeps. solve_keeps.
Qed.

Lemma get_temp_file_path_safe q c :
  preserves (file_safe q c) (fun p => p <> Some q)
    (get temp_file_path : Prog (option pystr)).
Proof. intros s [Hq Hp]. split; [by split |]. by intros a [= <-]. Qed.

Lemma try_safe q c m pr up t :
  preserves (file_safe q c) (fun _ => True) (transcribe_try host m pr up t).
Proof.
  unfold transcribe_try.
  apply (preserves_bind _ (fun _ => True)); [apply steps_safe |].
  intros r _. apply (preserves_bind _ (fun _ => True)).
  { apply preserves_of_keeps. solve_keeps. }
  intros t1 _. apply (preserves_bind _ (fun _ => True)).
  { apply preserves_of_keeps. solve_keeps. }
  intros _ _. apply (preserves_bind _ (fun _ => True)).
  { apply preserves_of_keeps. solve_keeps. }
  intros _ _. apply (preserves_bind _ (fun p => p <> Some q)).
  { apply get_temp_file_path_safe. }
  intros p Hp. apply (preserves_bind _ (fun _ => True)).
  - destruct (truthy_path p) as [x|] eqn:Hx; [| by apply preserves_ret].
    apply os_unlink_safe. apply truthy_path_Some in Hx. congruence.
  - intros _ _. by apply preserves_ret.
Qed.

Lemma except_safe q c t e :
  preserves (file_safe q c) (fun _ => True) (transcribe_except host t e).
Proof.
  unfold transcribe_except.
  apply (preserves_bind _ (fun _ => True)).
  { apply preserves_of_keeps. solve_keeps. }
  intros _ _. apply (preserves_bind _ (fun _ => True)).
  { apply preserves_of_keeps. solve_keeps. }
  intros t1 _. apply (preserves_bind _ (fun _ => True)).
  { apply preserves_of_keeps. solve_keeps. }
  intros _ _. apply (preserves_bind _ (fun p => p <> Some q)).
  { apply get_temp_file_path_safe. }
  intros p Hp. apply (preserves_bind _ (fun _ => True)).
  - destruct (truthy_path p) as [x|] eqn:Hx; [| by apply preserves_ret].
    apply preserves_try_except; [| intros; by apply preserves_ret].
    apply os_unlink_safe. apply truthy_path_Some in Hx. congruence.
  - intros _ _. by apply preserves_ret.
Qed.

(** X8: a request never creates, changes or deletes a file that existed
    when it arrived: the only file it writes is the one it has just
    created under a name that was free, and the only path it unlinks is
    that one.  This holds on every exit path, failures of the upload, of
    the decoders, of the model and of [os.unlink] included. *)
Theorem transcribe_keeps_existing_files up (s : St) q c :
  fs s !! q = Some c ->
  fs (transcribe host up s).2 !! q = Some c.
Proof.
  intros Hq. unfold transcribe.
  destruct (ready_handles s) as [[m pr]|]; [| exact Hq].
  rewrite bind_run, prologue_run.
  assert (Hsafe : file_safe q c (accepted host s)) by (by split).
  destruct (preserves_try_except _ _ _ _
              (try_safe q c m pr up (clock host (clock_reads s)))
              (except_safe q c (clock host (clock_reads s)))
              (accepted host s) Hsafe) as [[Hfs _] _].
  exact Hfs.
Qed.

(** ** An empty batch from the decoder *)

(** X9: when [batch_decode] returns an empty list, the [[0]] of line 147
    raises [IndexError]: the request is answered with
    ["Transcription failed: list index out of range"], counted as an
    error, and neither the decode histogram nor the total one is
    observed. *)
Theorem empty_batch_is_an_error up (s : St) m pr path sa audio t1 sb
    inputs dev t2 sc ids t3 sd :
  ready_handles s = Some (m, pr) ->
  save_upload host up (accepted host s) = (Ok path, sa) ->
  timed_load host path sa = (Ok (audio, t1), sb) ->
  timed_process host m pr audio sb = (Ok (inputs, dev, t2), sc) ->
  timed_generate host m inputs sc = (Ok (ids, t3), sd) ->
  ext_batch_decode host pr ids = Ok [] ->
  exists s',
    transcribe host up s
    = (Ok (JObj [("error"%string,
                  JStr (py "Transcription failed: list index out of range"))]),
       s')
    /\ TRANSCRIPTION_ERRORS s' = S (TRANSCRIPTION_ERRORS s)
    /\ DECODE_DURATION s' = DECODE_DURATION s
    /\ TRANSCRIPTION_DURATION s' = TRANSCRIPTION_DURATION s.
Proof.
  intros Hready Hsave Hload Hproc Hgen Hbatch.
  assert (Hdec : exists se,
             timed_decode host pr ids sd = (Raise IndexError, se)
             /\ DECODE_DURATION se = DECODE_DURATION sd).
  { unfold timed_decode. erewrite bind_Ok by reflexivity.
    rewrite bind_run. unfold ext at 1. rewrite Hbatch.
    eexists. split; reflexivity. }
  destruct Hdec as (se & Hdec & Hd).
  assert (Hsteps : steps_3_7 host m pr up (accepted host s) = (Raise IndexError, se)).
  { unfold steps_3_7.
    rewrite (bind_Ok _ _ _ _ _ Hsave), (bind_Ok _ _ _ _ _ Hload).
    cbv beta iota. rewrite (bind_Ok _ _ _ _ _ Hproc). cbv beta iota.
    rewrite (bind_Ok _ _ _ _ _ Hgen). cbv beta iota.
    by apply bind_Raise. }
  rewrite (transcribe_ready host up s m pr Hready). unfold try_except.
  assert (Htry : transcribe_try host m pr up (clock host (clock_reads s))
                   (accepted host s) = (Raise IndexError, se)).
  { unfold transcribe_try. by apply bind_Raise. }
  rewrite Htry.
  destruct (transcribe_except host (clock host (clock_reads s)) IndexError se)
    as [r s'] eqn:Hexc.
  destruct (except_returns host (clock host (clock_reads s)) IndexError se)
    as (s2 & Hret & Hcount).
  rewrite Hexc in Hret. injection Hret as -> <-.
  exists s'. split; [reflexivity |].
  unchanged (DECODE_DURATION : St -> _) Hexc.
  unchanged (DECODE_DURATION : St -> _) Hsave.
  unchanged (DECODE_DURATION : St -> _) Hload.
  unchanged (DECODE_DURATION : St -> _) Hproc.
  unchanged (DECODE_DURATION : St -> _) Hgen.
  unchanged (TRANSCRIPTION_DURATION : St -> _) Hexc.
  unchanged (TRANSCRIPTION_DURATION : St -> _) Hsteps.
  unchanged (TRANSCRIPTION_ERRORS : St -> _) Hsteps.
  change (DECODE_DURATION (accepted host s)) with (DECODE_DURATION s) in *.
  change (TRANSCRIPTION_DURATION (accepted host s))
    with (TRANSCRIPTION_DURATION s) in *.
  change (TRANSCRIPTION_ERRORS (accepted host s))
    with (TRANSCRIPTION_ERRORS s) in *.
  split; [congruence |]. split; congruence.
Qed.

(** ** The health endpoints, the gauge and the gate *)

Lemma load_whisper_model_outcome (s : St) :
  exists b s',
    load_whisper_model host s = (Ok b, s')
    /\ MODEL_LOADED s' = (if b then 1 else 0)
    /\ (b = true ->
        is_None (whisper_model s') = false /\ is_None (processor s') = false).
Proof.
  unfold load_whisper_model, try_except.
  rewrite !bind_run.
  change (logger_info s) with (Ok tt, log_call "logger.info" s).
  cbv beta iota. rewrite !bind_run. unfold ext at 1.
  destruct (ext_processor_from_pretrained host _) as [p|e1].
  2:{ exists false. eexists. split; [reflexivity |]. by split. }
  rewrite !bind_run. unfold assign_processor at 1. rewrite !bind_run.
  unfold ext at 1.
  destruct (ext_model_from_pretrained host _ _) as [m0|e2].
  2:{ exists false. eexists. split; [reflexivity |]. by split. }
  rewrite !bind_run. unfold assign_whisper_model at 1. rewrite !bind_run.
  unfold ext at 1.
  destruct (ext_model_to host m0 _) as [m1|e3].
  2:{ exists false. eexists. split; [reflexivity |]. by split. }
  exists true. eexists. split; [reflexivity |]. by split.
Qed.

Lemma startup_consistent (s0 : St) :
  exists s, startup host s0 = (Ok tt, s) /\ consistent s.
Proof.
  destruct (load_whisper_model_outcome s0) as (b & s1 & Hload & Hg & Hset).
  unfold startup. rewrite (bind_Ok _ _ _ _ _ Hload).
  eexists. split; [reflexivity |]. unfold consistent, not_ready. simpl.
  destruct b.
  - left. destruct (Hset eq_refl) as [-> ->]. by repeat split.
  - right. by repeat split.
Qed.

Lemma transcribe_returns up (s : St) :
  exists resp s', transcribe host up s = (Ok resp, s').
Proof.
  destruct (ready_handles s) as [[m pr]|] eqn:Hready.
  - rewrite (transcribe_ready host up s m pr Hready). unfold try_except.
    destruct (transcribe_try host m pr up _ (accepted host s)) as [[resp|e] s1].
    + by eauto.
    + destruct (except_returns host (clock host (clock_reads s)) e s1)
        as (s' & -> & _). by eauto.
  - unfold transcribe. rewrite Hready. by eauto.
Qed.

Lemma serve_returns reqs (s : St) :
  exists bodies s',
    serve host reqs s = (Ok bodies, s') /\ length bodies = length reqs.
Proof.
  revert s. induction reqs as [|up rest IH]; intros s; simpl.
  - by exists [], s.
  - destruct (transcribe_returns up s) as (resp & s1 & Hrun).
    destruct (IH s1) as (bodies & s' & Hrest & Hlen).
    rewrite (bind_Ok _ _ _ _ _ Hrun), (bind_Ok _ _ _ _ _ Hrest).
    exists (resp :: bodies), s'. split; [reflexivity |]. simpl. by rewrite Hlen.
Qed.

Lemma serve_keeps {X} (f : St -> X) reqs :
  (forall up, keeps f (transcribe host up)) -> keeps f (serve host reqs).
Proof.
  intros H. induction reqs as [|up rest IH]; simpl.
  - apply keeps_ret.
  - apply keeps_bind; [apply H |]. intros resp.
    apply keeps_bind; [exact IH |]. intros bodies. apply keeps_ret.
Qed.

Lemma serve_consistent reqs (s : St) :
  consistent s -> consistent (serve host reqs s).2.
Proof.
  assert (Hk : keeps (fun s : St => (model_loaded s, MODEL_LOADED s, not_ready s))
                 (serve host reqs)).
  { apply serve_keeps. intros up. apply transcribe_keeps. intros; solve_keeps. }
  specialize (Hk s). injection Hk as H1 H2 H3.
  unfold consistent. by rewrite H1, H2, H3.
Qed.

(** X10: at any moment after the start of the process, before or after
    any number of requests, [/health], [/], the model-loaded gauge and
    the readiness check of [/transcribe/] agree: the status is
    ["healthy"] or ["unhealthy"], and it is ["healthy"] exactly when
    [model_loaded] is reported [true], when the gauge is 1, when
    [/transcribe/] lets requests through, and when [/] says ["loaded"]. *)
Theorem health_gauge_and_gate_agree (s0 : St) reqs :
  exists bodies s,
    (startup host ≫= fun _ => serve host reqs) s0 = (Ok bodies, s)
    /\ (json_get "status" (health_check host s) = Some (JStr (py "healthy"))
        \/ json_get "status" (health_check host s) = Some (JStr (py "unhealthy")))
    /\ (json_get "status" (health_check host s) = Some (JStr (py "healthy"))
        <-> json_get "model_loaded" (health_check host s) = Some (JBool true))
    /\ (json_get "status" (health_check host s) = Some (JStr (py "healthy"))
        <-> MODEL_LOADED s = 1)
    /\ (json_get "status" (health_check host s) = Some (JStr (py "healthy"))
        <-> not_ready s = false)
    /\ (json_get "status" (health_check host s) = Some (JStr (py "healthy"))
        <-> root s
            = JObj [("message"%string,
                     JStr (py "Whisper Large V3 Speech-to-Text API is up and running! Model status: loaded"))]).
Proof.
  destruct (startup_consistent s0) as (s1 & Hstart & Hc).
  destruct (serve_returns reqs s1) as (bodies & s & Hserve & _).
  exists bodies, s. split.
  { by rewrite (bind_Ok _ _ _ _ _ Hstart). }
  pose proof (serve_consistent reqs s1 Hc) as Hs. rewrite Hserve in Hs.
  simpl in Hs. unfold health_check, root. simpl.
  destruct Hs as [(Hl & Hg & Hr)|(Hl & Hg & Hr)]; rewrite Hl, Hg, Hr.
  - split; [by left |]. by repeat split.
  - split; [by right |]. repeat split; intros H; discriminate H.
Qed.

(** X11: while [/health] reports ["unhealthy"], every request of any
    sequence is answered [{"error": "Whisper model not loaded"}] and the
    sequence leaves the state, counters and files included, exactly as
    it was. *)
Theorem unhealthy_process_rejects_every_request reqs (s : St) :
  json_get "status" (health_check host s) = Some (JStr (py "unhealthy")) ->
  serve host reqs s = (Ok (replicate (length reqs) not_loaded_payload), s).
Proof.
  unfold health_check. simpl. intros H.
  assert (Hl : model_loaded s = false).
  { destruct (model_loaded s); [discriminate H | reflexivity]. }
  assert (Hrun : forall up, transcribe host up s = (Ok not_loaded_payload, s)).
  { intros up. unfold transcribe, ready_handles. by rewrite Hl. }
  clear H. induction reqs as [|up rest IH]; simpl; [reflexivity |].
  by rewrite (bind_Ok _ _ _ _ _ (Hrun up)), (bind_Ok _ _ _ _ _ IH).
Qed.

(** ** The counters over a run of requests *)

Lemma request_accounting up (s : St) resp s' :
  not_ready s = false ->
  transcribe host up s = (Ok resp, s') ->
  TRANSCRIPTION_REQUESTS s' = S (TRANSCRIPTION_REQUESTS s)
  /\ TRANSCRIPTION_ERRORS s'
     = (TRANSCRIPTION_ERRORS s + if is_error_body resp then 1 else 0)%nat
  /\ not_ready s' = false.
Proof.
  intros Hready Hrun.
  assert (Hnr : not_ready s' = false).
  { pose proof (transcribe_keeps_not_ready host up s) as Hk.
    rewrite Hrun in Hk. simpl in Hk. congruence. }
  apply ready_handles_Some in Hready as (m & pr & Hready).
  rewrite (transcribe_ready host up s m pr Hready) in Hrun.
  unfold try_except in Hrun.
  pose proof (try_keeps_errors host m pr up (clock host (clock_reads s))
                (accepted host s)) as Herr.
  pose proof (try_keeps_requests host m pr up (clock host (clock_reads s))
                (accepted host s)) as Hreq.
  destruct (transcribe_try host m pr up _ (accepted host s))
    as [[resp0|e] s1] eqn:Htry; simpl in *.
  - injection Hrun as -> ->.
    apply try_returns_success in Htry as (r & total & ->).
    split; [exact Hreq |]. split; [| exact Hnr].
    simpl. rewrite Herr. simpl. lia.
  - destruct (except_returns host (clock host (clock_reads s)) e s1)
      as (s2 & Hexc & Hcount).
    pose proof (except_keeps_requests host (clock host (clock_reads s)) e s1)
      as Hreq2.
    rewrite Hexc in Hrun, Hreq2. injection Hrun as <- <-. simpl in *.
    split; [congruence |]. split; [| exact Hnr].
    rewrite Hcount, Herr. simpl. lia.
Qed.

(** X12: in a process that accepts requests, after any sequence of
    requests handled one after another there is one body per request, the
    request counter has grown by the number of requests, and the error
    counter by the number of bodies that carry ["error"]; so the error
    counter never grows more than the request counter. *)
Theorem counters_over_a_run reqs (s : St) bodies s' :
  not_ready s = false ->
  serve host reqs s = (Ok bodies, s') ->
  (length bodies = length reqs
   /\ TRANSCRIPTION_REQUESTS s' = TRANSCRIPTION_REQUESTS s + length reqs
   /\ TRANSCRIPTION_ERRORS s'
      = TRANSCRIPTION_ERRORS s + length (List.filter is_error_body bodies)
   /\ TRANSCRIPTION_ERRORS s' - TRANSCRIPTION_ERRORS s
      <= TRANSCRIPTION_REQUESTS s' - TRANSCRIPTION_REQUESTS s)%nat.
Proof.
  revert s bodies s'. induction reqs as [|up rest IH];
    intros s bodies s' Hready Hrun; simpl in Hrun.
  - injection Hrun as <- <-. simpl. repeat split; lia.
  - apply bind_Ok_inv in Hrun as (resp & s1 & Hone & Hrun).
    apply bind_Ok_inv in Hrun as (bs & s2 & Hrest & Hrun).
    injection Hrun as <- <-.
    destruct (request_accounting up s resp s1 Hready Hone) as (Hreq & Herr & Hnr).
    destruct (IH s1 bs s2 Hnr Hrest) as (Hlen & Hreqs & Herrs & Hle).
    simpl. destruct (is_error_body resp); simpl; repeat split; lia.
Qed.

End MoreProperties.

(** * Concrete runs for the further properties *)

(** A request that fails in the decoders, on a started process: the
    answer is an error and the counter moved. *)
Lemma error_counter_matches_answer_witness :
  let h := Demo.demo_host false false [] in
  let s := Demo.started h in
  let out := transcribe h Demo.empty_clip s in
  let resp := error_payload Demo.librosa_error in
  not_ready s = false
  /\ out = (Ok resp, out.2)
  /\ ((is_error_body resp = true
       /\ json_get "transcription" resp = None
       /\ TRANSCRIPTION_ERRORS out.2 = S (TRANSCRIPTION_ERRORS s))
      \/ (is_error_body resp = false
          /\ is_Some (json_get "transcription" resp)
          /\ TRANSCRIPTION_ERRORS out.2 = TRANSCRIPTION_ERRORS s)).
Proof.
  intros h s out resp.
  assert (H1 : not_ready s = false) by reflexivity.
  assert (H2 : out = (Ok resp, out.2)) by (vm_compute; reflexivity).
  split; [exact H1 |]. split; [exact H2 |].
  exact (error_counter_matches_answer h Demo.empty_clip s resp out.2 H1 H2).
Defined.

(** A request that succeeds: one observation per histogram, and the same
    numbers in the body. *)
Lemma success_observes_what_it_reports_witness :
  let h := Demo.demo_host false false [] in
  let s := Demo.started h in
  let out := transcribe h Demo.clip s in
  exists resp,
    out = (Ok resp, out.2)
    /\ is_Some (json_get "transcription" resp)
    /\ exists total audio processing inference decode dev,
         TRANSCRIPTION_DURATION out.2 = TRANSCRIPTION_DURATION s ++ [total]
         /\ AUDIO_LOAD_DURATION out.2 = AUDIO_LOAD_DURATION s ++ [audio]
         /\ PROCESSING_DURATION out.2 = PROCESSING_DURATION s ++ [processing]
         /\ INFERENCE_DURATION out.2 = INFERENCE_DURATION s ++ [inference]
         /\ DECODE_DURATION out.2 = DECODE_DURATION s ++ [decode]
         /\ json_get "metrics" resp
            = Some (JObj [("total_time"%string, JNum (round2 h total));
                          ("audio_load_time"%string, JNum (round2 h audio));
                          ("processing_time"%string, JNum (round2 h processing));
                          ("inference_time"%string, JNum (round2 h inference));
                          ("decode_time"%string, JNum (round2 h decode));
                          ("device"%string, JStr dev)]).
Proof.
  intros h s out.
  set (resp := match out.1 with Ok b => b | Raise _ => JObj [] end).
  assert (H1 : out = (Ok resp, out.2)) by (vm_compute; reflexivity).
  assert (H2 : is_Some (json_get "transcription" resp))
    by (vm_compute; by eexists).
  exists resp. split; [exact H1 |]. split; [exact H2 |].
  exact (success_observes_what_it_reports h Demo.clip s resp out.2 H1 H2).
Defined.

(** Step 3 on a started process with no files. *)
Lemma save_upload_stores_the_upload_witness :
  let h := Demo.demo_host false false [] in
  let s := accepted h (Demo.started h) in
  let path := py "/tmp/tmpk3v9x2ab.mp3" in
  let out := save_upload h Demo.clip s in
  out = (Ok path, out.2)
  /\ exists stem content,
       path = stem ++ file_extension (filename Demo.clip)
       /\ read Demo.clip = Ok content
       /\ fs s !! path = None
       /\ fs out.2 !! path = Some content
       /\ (forall q, q <> path -> fs out.2 !! q = fs s !! q)
       /\ temp_file_path out.2 = Some path.
Proof.
  intros h s path out.
  assert (H1 : out = (Ok path, out.2)) by (vm_compute; reflexivity).
  split; [exact H1 |].
  exact (save_upload_stores_the_upload h Demo.clip s path out.2 H1).
Defined.

(** A successful request on a process that has one file of its own. *)
Lemma success_restores_the_file_system_witness :
  let h := Demo.demo_host false false [] in
  let s := set_fs {[ py "/srv/notes.txt" := [x41]%byte ]} (Demo.started h) in
  let out := transcribe h Demo.clip s in
  exists resp,
    out = (Ok resp, out.2)
    /\ is_Some (json_get "transcription" resp)
    /\ fs out.2 = fs s.
Proof.
  intros h s out.
  set (resp := match out.1 with Ok b => b | Raise _ => JObj [] end).
  assert (H1 : out = (Ok resp, out.2)) by (vm_compute; reflexivity).
  assert (H2 : is_Some (json_get "transcription" resp))
    by (vm_compute; by eexists).
  exists resp. split; [exact H1 |]. split; [exact H2 |].
  exact (success_restores_the_file_system h Demo.clip s resp out.2 H1 H2).
Defined.

(** The worst case for the cleanup, both [os.unlink] calls failing: the
    file that was there is still untouched. *)
Lemma transcribe_keeps_existing_files_witness :
  let h := Demo.demo_host false false [0%nat; 1%nat] in
  let s := set_fs {[ py "/srv/notes.txt" := [x41]%byte ]} (Demo.started h) in
  fs s !! py "/srv/notes.txt" = Some [x41]%byte
  /\ fs (transcribe h Demo.clip s).2 !! py "/srv/notes.txt" = Some [x41]%byte.
Proof.
  intros h s.
  assert (H1 : fs s !! py "/srv/notes.txt" = Some [x41]%byte)
    by (vm_compute; reflexivity).
  split; [exact H1 |].
  exact (transcribe_keeps_existing_files h Demo.clip s _ _ H1).
Defined.

(** A processor that decodes to an empty batch. *)
Lemma empty_batch_is_an_error_witness :
  let h := DemoEmptyBatch.empty_batch_host in
  let s := Demo.started h in
  let path := py "/tmp/tmpk3v9x2ab.mp3" in
  let sa := (save_upload h Demo.clip (accepted h s)).2 in
  let sb := (timed_load h path sa).2 in
  let sc := (timed_process h (py "cpu") tt 16000 sb).2 in
  let sd := (timed_generate h (py "cpu") tt sc).2 in
  ready_handles s = Some (py "cpu", tt)
  /\ save_upload h Demo.clip (accepted h s) = (Ok path, sa)
  /\ timed_load h path sa = (Ok (16000, 25), sb)
  /\ timed_process h (py "cpu") tt 16000 sb = (Ok (tt, py "cpu", 25), sc)
  /\ timed_generate h (py "cpu") tt sc = (Ok (tt, 25), sd)
  /\ ext_batch_decode h tt tt = Ok []
  /\ exists s',
       transcribe h Demo.clip s
       = (Ok (JObj [("error"%string,
                     JStr (py "Transcription failed: list index out of range"))]),
          s')
       /\ TRANSCRIPTION_ERRORS s' = S (TRANSCRIPTION_ERRORS s)
       /\ DECODE_DURATION s' = DECODE_DURATION s
       /\ TRANSCRIPTION_DURATION s' = TRANSCRIPTION_DURATION s.
Proof.
  intros h s path sa sb sc sd.
  assert (H1 : ready_handles s = Some (py "cpu", tt)) by reflexivity.
  assert (H2 : save_upload h Demo.clip (accepted h s) = (Ok path, sa))
    by (vm_compute; reflexivity).
  assert (H3 : timed_load h path sa = (Ok (16000, 25), sb))
    by (vm_compute; reflexivity).
  assert (H4 : timed_process h (py "cpu") tt 16000 sb = (Ok (tt, py "cpu", 25), sc))
    by (vm_compute; reflexivity).
  assert (H5 : timed_generate h (py "cpu") tt sc = (Ok (tt, 25), sd))
    by (vm_compute; reflexivity).
  assert (H6 : ext_batch_decode h tt tt = Ok []) by reflexivity.
  repeat (split; [assumption |]).
  exact (empty_batch_is_an_error h Demo.clip s _ _ _ _ _ _ _ _ _ _ _ _ _ _
           H1 H2 H3 H4 H5 H6).
Defined.

(** A process whose start has not loaded the model. *)
Lemma unhealthy_process_rejects_every_request_witness :
  let h := Demo.demo_host false false [] in
  let s := Demo.init_state in
  json_get "status" (health_check h s) = Some (JStr (py "unhealthy"))
  /\ serve h [Demo.clip; Demo.empty_clip] s
     = (Ok [not_loaded_payload; not_loaded_payload], s).
Proof.
  intros h s.
  assert (H1 : json_get "status" (health_check h s)
               = Some (JStr (py "unhealthy"))) by reflexivity.
  split; [exact H1 |].
  exact (unhealthy_process_rejects_every_request h
           [Demo.clip; Demo.empty_clip] s H1).
Defined.

(** Three requests, the second of which fails. *)
Lemma counters_over_a_run_witness :
  let h := Demo.demo_host false false [] in
  let s := Demo.started h in
  let reqs := [Demo.clip; Demo.empty_clip; Demo.clip] in
  let out := serve h reqs s in
  exists bodies,
    not_ready s = false
    /\ out = (Ok bodies, out.2)
    /\ (length bodies = length reqs
        /\ TRANSCRIPTION_REQUESTS out.2 = TRANSCRIPTION_REQUESTS s + length reqs
        /\ TRANSCRIPTION_ERRORS out.2
           = TRANSCRIPTION_ERRORS s + length (List.filter is_error_body bodies)
        /\ TRANSCRIPTION_ERRORS out.2 - TRANSCRIPTION_ERRORS s
           <= TRANSCRIPTION_REQUESTS out.2 - TRANSCRIPTION_REQUESTS s)%nat.
Proof.
  intros h s reqs out.
  set (bodies := match out.1 with Ok b => b | Raise _ => [] end).
  assert (H1 : not_ready s = false) by reflexivity.
  assert (H2 : out = (Ok bodies, out.2)) by (vm_compute; reflexivity).
  exists bodies. split; [exact H1 |]. split; [exact H2 |].
  exact (counters_over_a_run h reqs s bodies out.2 H1 H2).
Defined.

(** An inference that runs out of memory after the upload was saved: the
    file is deleted by the [except] block. *)
Lemma tempfile_deleted_once_named_witness :
  let h := Demo.demo_host true true [] in
  let s := Demo.started h in
  let path := py "/tmp/tmpk3v9x2ab.mp3" in
  let sa := (save_upload h Demo.clip (accepted h s)).2 in
  ready_handles s = Some (py "cuda", tt)
  /\ save_upload h Demo.clip (accepted h s) = (Ok path, sa)
  /\ (forall n, ext_unlink_fault h n path = None)
  /\ fs (transcribe h Demo.clip s).2 !! path = None.
Proof.
  intros h s path sa.
  assert (H1 : ready_handles s = Some (py "cuda", tt)) by reflexivity.
  assert (H2 : save_upload h Demo.clip (accepted h s) = (Ok path, sa))
    by (vm_compute; reflexivity).
  assert (H3 : forall n, ext_unlink_fault h n path = None)
    by (intros n; reflexivity).
  split; [exact H1 |]. split; [exact H2 |]. split; [exact H3 |].
  exact (tempfile_deleted_once_named h (py "cuda") tt Demo.clip s path sa H1 H2 H3).
Defined.
